(** * News Summariser API ([app/main.py]): a shallow embedding

    The service has a module-level configuration step and two request
    handlers, [fetch_and_summarise_news] and [summarize_article].  Each
    handler performs one outbound call (NewsAPI through [requests], Gemini
    through [google.generativeai]) and shapes the answer.

    Python values are modelled as follows:
    - a [str] is the list of its Unicode code points ([pystr]);
    - a decoded JSON document is a [json] value, objects being finite maps
      from [str] keys (what [json.loads] builds: a [dict]);
    - an exception is an [exn]; a computation that may raise and that may
      perform outbound calls or print is a value of the monad [M], which
      carries the trace of these effects next to a [result]. *)

From Stdlib Require Import ZArith NArith String Ascii List DecimalString.
From Stdlib Require Import Floats.SpecFloat.
From stdpp Require Import base option list gmap fin_maps countable numbers.
Import ListNotations.

Local Open Scope Z_scope.
#[local] Set Warnings "-register-all".

(** ** Python strings *)

Module PyStr.

(** A Python [str]: a sequence of code points. *)
Definition pystr : Type := list N.

(** The code points of a source literal (all literals of [main.py] are
    ASCII). *)
Definition py (s : string) : pystr :=
  List.map N_of_ascii (list_ascii_of_string s).

(** [str.isspace] on one code point: the characters CPython's
    [_PyUnicode_IsWhitespace] accepts. *)
Definition isspace (c : N) : bool :=
  ((9 <=? c) && (c <=? 13)
   || (28 <=? c) && (c <=? 32)
   || (c =? 133) || (c =? 160) || (c =? 5760)
   || (8192 <=? c) && (c <=? 8202)
   || (c =? 8232) || (c =? 8233) || (c =? 8239) || (c =? 8287)
   || (c =? 12288))%N.

(** [str.lstrip()] *)
Fixpoint lstrip (s : pystr) : pystr :=
  match s with
  | [] => []
  | c :: s' => if isspace c then lstrip s' else s
  end.

(** [str.rstrip()] *)
Definition rstrip (s : pystr) : pystr := rev (lstrip (rev s)).

(** [str.strip()] with no argument *)
Definition strip (s : pystr) : pystr := rstrip (lstrip s).

(** Truth value of a [str]: non-empty. *)
Definition truthy (s : pystr) : bool :=
  match s with [] => false | _ :: _ => true end.

(** [str(n)] for an [int]. *)
Definition str_of_int (n : Z) : pystr :=
  py (DecimalString.NilZero.string_of_int (Z.to_int n)).

(** A string made of whitespace only (the empty one included). *)
Definition blank (s : pystr) : bool := forallb isspace s.

(** A code point [str.encode("utf-8")] accepts: a Unicode scalar value,
    that is anything but a surrogate (U+D800 to U+DFFF). *)
Definition utf8_encodable_char (c : N) : bool :=
  ((c <? 55296) || (57343 <? c) && (c <=? 1114111))%N.

(** [s.encode("utf-8")] succeeds: [s] holds no lone surrogate (which the
    escapes of a JSON document can put into a decoded string). *)
Definition utf8_encodable (s : pystr) : bool := forallb utf8_encodable_char s.

End PyStr.
Export PyStr.

(** ** Exceptions and results *)

Module Exn.

(** The exception classes that occur: Python's built-in ones, those of
    [requests], pydantic's [ValidationError], FastAPI's [HTTPException]
    and the Google API errors.  Only subclasses of [Exception] are
    modelled. *)
Inductive exn_class : Type :=
| Exception
| RuntimeError
| TypeError
| AttributeError
| LookupError
| KeyError
| ValueError
| ValidationError
| OSError
| RequestException
| HTTPError
| ConnectionError
| Timeout
| InvalidJSONError
| JSONDecodeError
| GoogleAPIError
| HTTPExceptionClass.

#[export] Instance exn_class_eq_dec : EqDecision exn_class.
Proof. solve_decision. Defined.

(** The direct base class. *)
Definition base (c : exn_class) : option exn_class :=
  match c with
  | Exception => None
  | RuntimeError | TypeError | AttributeError | LookupError | ValueError
  | OSError | GoogleAPIError | HTTPExceptionClass => Some Exception
  | KeyError => Some LookupError
  | ValidationError => Some ValueError
  | RequestException => Some OSError
  | HTTPError | ConnectionError | Timeout | InvalidJSONError =>
      Some RequestException
  | JSONDecodeError => Some InvalidJSONError
  end.

Fixpoint issubclass_fuel (fuel : nat) (c d : exn_class) : bool :=
  if bool_decide (c = d) then true
  else match fuel, base c with
       | S fuel', Some b => issubclass_fuel fuel' b d
       | _, _ => false
       end.

(** [issubclass(c, d)]; the hierarchy is four levels deep. *)
Definition issubclass (c d : exn_class) : bool := issubclass_fuel 4 c d.

(** An exception value.  [Exn c text] is an instance of class [c] with
    [str(e) = text]; [HTTPException] carries its two fields. *)
Inductive exn : Type :=
| Exn (cls : exn_class) (text : pystr)
| HTTPException (status_code : Z) (detail : pystr).

Definition class_of (e : exn) : exn_class :=
  match e with
  | Exn c _ => c
  | HTTPException _ _ => HTTPExceptionClass
  end.

(** [isinstance(e, c)], the test of an [except c] clause. *)
Definition isinstance (e : exn) (c : exn_class) : bool :=
  issubclass (class_of e) c.

(** [str(e)] *)
Definition str (e : exn) : pystr :=
  match e with
  | Exn _ text => text
  | HTTPException s d => str_of_int s ++ py ": " ++ d
  end.

Inductive result (A : Type) : Type :=
| Ok (a : A)
| Raise (e : exn).
Arguments Ok {A} a.
Arguments Raise {A} e.

End Exn.
Export Exn.

(** ** Decoded JSON documents *)

Module Json.

(** What [json.loads] returns: [None], [bool], [int], [float], [str],
    [list] or [dict] with [str] keys. *)
Inductive json : Type :=
| JNull
| JBool (b : bool)
| JInt (n : Z)
| JFloat (f : spec_float)
| JStr (s : pystr)
| JArr (items : list json)
| JObj (fields : gmap pystr json).

(** Python's truth value test ([bool(v)], as used by [not v]). *)
Definition truthy (v : json) : bool :=
  match v with
  | JNull => false
  | JBool b => b
  | JInt n => negb (n =? 0)
  | JFloat (S754_zero _) => false
  | JFloat _ => true
  | JStr s => PyStr.truthy s
  | JArr items => match items with [] => false | _ :: _ => true end
  | JObj fields => negb (Nat.eqb (size fields) 0)
  end.

(** The name of the Python type of a value (for error texts). *)
Definition type_name (v : json) : pystr :=
  match v with
  | JNull => py "NoneType"
  | JBool _ => py "bool"
  | JInt _ => py "int"
  | JFloat _ => py "float"
  | JStr _ => py "str"
  | JArr _ => py "list"
  | JObj _ => py "dict"
  end.

(** [v.get(key)]: only a [dict] has the method; the default of a missing
    key is [None]. *)
Definition get (v : json) (key : pystr) : result json :=
  match v with
  | JObj fields => Ok (default JNull (fields !! key))
  | _ => Raise (Exn AttributeError
                  (py "'" ++ type_name v ++ py "' object has no attribute 'get'"))
  end.

(** [v.get(key, dflt)]: the default is used only when the key is absent. *)
Definition get_default (v : json) (key : pystr) (dflt : json) : result json :=
  match v with
  | JObj fields => Ok (default dflt (fields !! key))
  | _ => Raise (Exn AttributeError
                  (py "'" ++ type_name v ++ py "' object has no attribute 'get'"))
  end.

(** [v[key]] for a [str] key. *)
Definition getitem (v : json) (key : pystr) : result json :=
  match v with
  | JObj fields =>
      match fields !! key with
      | Some x => Ok x
      | None => Raise (Exn KeyError (py "'" ++ key ++ py "'"))
      end
  | JStr _ => Raise (Exn TypeError (py "string indices must be integers"))
  | JArr _ => Raise (Exn TypeError
                       (py "list indices must be integers or slices, not str"))
  | _ => Raise (Exn TypeError
                  (py "'" ++ type_name v ++ py "' object is not subscriptable"))
  end.

(** [v[:n]] for [0 <= n]: lists and strings can be sliced; a [dict] takes
    the slice for a key, which fails ([TypeError] before Python 3.12,
    [KeyError] from then on; the former is modelled), and the other types
    are not subscriptable. *)
Definition slice_to (v : json) (n : nat) : result json :=
  match v with
  | JArr items => Ok (JArr (take n items))
  | JStr s => Ok (JStr (take n s))
  | JObj _ => Raise (Exn TypeError (py "unhashable type: 'slice'"))
  | _ => Raise (Exn TypeError
                  (py "'" ++ type_name v ++ py "' object is not subscriptable"))
  end.

(** The elements a [for] loop over [v] visits: the items of a list, the
    characters of a string, the keys of a dict (a finite map keeps no
    insertion order; [main.py] never gets to iterate over a dict, the slice
    of line 78 fails first). *)
Definition iter (v : json) : result (list json) :=
  match v with
  | JArr items => Ok items
  | JStr s => Ok (List.map (fun c => JStr [c]) s)
  | JObj fields => Ok (List.map (fun kv => JStr (fst kv)) (map_to_list fields))
  | _ => Raise (Exn TypeError
                  (py "'" ++ type_name v ++ py "' object is not iterable"))
  end.

End Json.
Export Json.

(** ** Effects: outbound calls and printing *)

Module Effects.

(** A value of the [params] dict handed to [requests.get]. *)
Inductive param : Type :=
| PStr (s : pystr)
| PInt (n : Z)
| PNone.

(** What a handler does to the outside world. *)
Inductive event : Type :=
| EvHttpGet (url : pystr) (params : list (pystr * param))
| EvGenerateContent (model_name : pystr) (prompt : pystr)
| EvPrint (line : pystr).

(** A computation: the events it performed, in order, and how it ended. *)
Definition M (A : Type) : Type := list event * result A.

Definition ret {A} (a : A) : M A := ([], Ok a).

Definition bind {A B} (m : M A) (k : A -> M B) : M B :=
  match m with
  | (t, Ok a) => let '(t', r) := k a in (t ++ t', r)
  | (t, Raise e) => (t, Raise e)
  end.

(** [raise e] *)
Definition raise {A} (e : exn) : M A := ([], Raise e).

(** An effect-free step that may raise. *)
Definition lift {A} (r : result A) : M A := ([], r).

(** The effect [ev], answered by [r]. *)
Definition perform {A} (ev : event) (r : result A) : M A := ([ev], r).

(** [try: body  except c as e: handler e] *)
Definition try_except {A} (body : M A) (c : exn_class)
    (handler : exn -> M A) : M A :=
  match body with
  | (t, Ok a) => (t, Ok a)
  | (t, Raise e) =>
      if isinstance e c
      then let '(t', r) := handler e in (t ++ t', r)
      else (t, Raise e)
  end.

(** [[f x for x in l]], stopping at the first exception. *)
Fixpoint comprehension {A B} (f : A -> M B) (l : list A) : M (list B) :=
  match l with
  | [] => ret []
  | x :: l' =>
      bind (f x) (fun y =>
      bind (comprehension f l') (fun ys =>
      ret (y :: ys)))
  end.

Definition trace {A} (m : M A) : list event := fst m.
Definition outcome {A} (m : M A) : result A := snd m.

End Effects.
Export Effects.

Notation "x <- m ;; k" := (bind m (fun x => k))
  (at level 100, m at next level, right associativity).
Notation "m ;;; k" := (bind m (fun _ => k))
  (at level 100, right associativity).

(** ** The [requests] library, as far as [main.py] uses it *)

Module Requests.

(** A [requests.Response]: the status line, the final URL, and what
    [Response.json()] does on the body (the decoded document, or the
    exception the decoder raises). *)
Record Response : Type := mkResponse {
  status_code : Z;
  reason : pystr;
  url : pystr;
  json_body : result json
}.

(** The message [raise_for_status] builds: empty unless the status is a
    4xx or a 5xx. *)
Definition http_error_msg (r : Response) : pystr :=
  if (400 <=? status_code r) && (status_code r <? 500) then
    str_of_int (status_code r) ++ py " Client Error: "
    ++ reason r ++ py " for url: " ++ url r
  else if (500 <=? status_code r) && (status_code r <? 600) then
    str_of_int (status_code r) ++ py " Server Error: "
    ++ reason r ++ py " for url: " ++ url r
  else [].

(** [Response.raise_for_status()]: an [HTTPError] when there is a message,
    that is for a 4xx or a 5xx status; nothing otherwise. *)
Definition raise_for_status (r : Response) : result unit :=
  if PyStr.truthy (http_error_msg r)
  then Raise (Exn HTTPError (http_error_msg r))
  else Ok tt.

(** [Response.json()] *)
Definition json (r : Response) : result Json.json := json_body r.

(** The network seen from [requests.get]: for a URL and its parameters,
    either a response or the exception raised (a connection error, a
    timeout, ...). *)
Definition network : Type := pystr -> list (pystr * param) -> result Response.

(** [requests.get(url, params=params)] *)
Definition get (net : network) (url : pystr) (params : list (pystr * param))
  : M Response :=
  perform (EvHttpGet url params) (net url params).

End Requests.

(** ** The [google.generativeai] client, as far as [main.py] uses it *)

Module Genai.

(** The object [generate_content] returns; reading its [text] property
    raises when the reply holds no usable part. *)
Record GenerateContentResponse : Type := mkGenResponse {
  text : result pystr
}.

(** [genai.GenerativeModel(model_name)] *)
Record GenerativeModel : Type := mkModel {
  model_name : pystr
}.

(** The LLM provider: for a model and a prompt, a reply or the exception
    raised (authentication, quota, network, ...). *)
Definition provider : Type := pystr -> pystr -> result GenerateContentResponse.

(** [model.generate_content(prompt)] *)
Definition generate_content (llm : provider) (model : GenerativeModel)
    (prompt : pystr) : M GenerateContentResponse :=
  perform (EvGenerateContent (model_name model) prompt)
          (llm (model_name model) prompt).

End Genai.

(** ** The pydantic models of [main.py] *)

(** [class Article(BaseModel)] *)
Record Article : Type := mkArticle {
  title : pystr;
  url : pystr;
  description : option pystr;
  source_name : option pystr
}.

(** [class SummarizeRequest(BaseModel)] *)
Record SummarizeRequest : Type := mkSummarizeRequest {
  content : pystr
}.

(** [class SummaryResponse(BaseModel)] *)
Record SummaryResponse : Type := mkSummaryResponse {
  summary : pystr
}.

Module Pydantic.

(** Validation of a field annotated [str]: a string is required.  (The
    text of a [ValidationError], which nothing in [main.py] reads, is
    abbreviated to the name of the field.) *)
Definition validate_str (field : pystr) (v : json) : result pystr :=
  match v with
  | JStr s => Ok s
  | _ => Raise (Exn ValidationError field)
  end.

(** Validation of a field annotated [Optional[str]]: [None] or a string. *)
Definition validate_optional_str (field : pystr) (v : json)
  : result (option pystr) :=
  match v with
  | JNull => Ok None
  | JStr s => Ok (Some s)
  | _ => Raise (Exn ValidationError field)
  end.

End Pydantic.

(** [Article(title=t, url=u, description=d, source_name=n)] *)
Definition Article_init (t u d n : json) : M Article :=
  t' <- lift (Pydantic.validate_str (py "title") t) ;;
  u' <- lift (Pydantic.validate_str (py "url") u) ;;
  d' <- lift (Pydantic.validate_optional_str (py "description") d) ;;
  n' <- lift (Pydantic.validate_optional_str (py "source_name") n) ;;
  ret (mkArticle t' u' d' n').

(** ** FastAPI: from a handler's outcome to the HTTP response *)

Module FastAPI.

Inductive response (A : Type) : Type :=
| Success (body : A)
| ErrorDetail (status : Z) (detail : pystr)
| InternalServerError.
Arguments Success {A} body.
Arguments ErrorDetail {A} status detail.
Arguments InternalServerError {A}.

(** A returned value goes through the [response_model] of the route and is
    rendered as JSON encoded in UTF-8; [encodable] tells whether that
    encoding succeeds.  It is then sent with status 200; when the encoding
    fails the error is nobody's to catch and the answer is a 500, as for
    any exception of the handler other than an [HTTPException], which is
    sent with its own status and detail. *)
Definition respond {A} (encodable : A -> bool) (r : result A) : response A :=
  match r with
  | Ok a => if encodable a then Success a else InternalServerError
  | Raise (HTTPException s d) => ErrorDetail s d
  | Raise (Exn _ _) => InternalServerError
  end.

Definition status {A} (r : response A) : Z :=
  match r with
  | Success _ => 200
  | ErrorDetail s _ => s
  | InternalServerError => 500
  end.

(** A route: the handler runs, its outcome is turned into a response. *)
Definition serve {A} (encodable : A -> bool) (m : M A)
  : list event * response A :=
  (trace m, respond encodable (outcome m)).

End FastAPI.
Export FastAPI.

(** ** [main.py]: module-level configuration *)

Definition nl : pystr := [10%N].

Definition NEWS_API_URL : pystr := py "https://newsapi.org/v2/top-headlines".
Definition GEMINI_MODEL_NAME : pystr := py "gemini-2.0-flash-lite".

(** The two module globals read from the environment. *)
Record Config : Type := mkConfig {
  NEWS_API_KEY : pystr;
  GEMINI_API_KEY : pystr
}.

(** What running the module has set up so far: the routes registered on
    [app] (method and path) and the key handed to [genai.configure]. *)
Record module_state : Type := mkModuleState {
  routes : list (pystr * pystr);
  genai_api_key : option pystr
}.

(** [load_dotenv()]: the variables of the [.env] file are added to the
    process environment; a variable already set keeps its value. *)
Definition load_dotenv (dotenv environ : gmap pystr pystr) : gmap pystr pystr :=
  environ ∪ dotenv.

(** [os.getenv(name)] *)
Definition os_getenv (environ : gmap pystr pystr) (name : pystr) : option pystr :=
  environ !! name.

(** Truth value of what [os.getenv] returns: [None] and [""] are false. *)
Definition getenv_truthy (v : option pystr) : bool :=
  match v with
  | None => false
  | Some s => PyStr.truthy s
  end.

(** The top-level statements of [main.py], in order, for a [.env] file and
    a process environment.  The state starts without routes; the three
    routes are registered by the decorators, which come after the two
    checks. *)
Definition main_module (dotenv environ : gmap pystr pystr)
  : module_state * result Config :=
  let environ := load_dotenv dotenv environ in
  let st := mkModuleState [] None in
  let news_api_key := os_getenv environ (py "NEWS_API_KEY") in
  if negb (getenv_truthy news_api_key) then
    (st, Raise (Exn RuntimeError (py "NEWS_API_KEY not found in the .env file.")))
  else
  let gemini_api_key := os_getenv environ (py "GEMINI_API_KEY") in
  if negb (getenv_truthy gemini_api_key) then
    (st, Raise (Exn RuntimeError (py "GEMINI_API_KEY not found in the .env file.")))
  else
  let st := mkModuleState (routes st) gemini_api_key in
  let st := mkModuleState (routes st ++ [(py "GET", py "/")]) (genai_api_key st) in
  let st := mkModuleState (routes st ++ [(py "GET", py "/fetch_news")])
                          (genai_api_key st) in
  let st := mkModuleState (routes st ++ [(py "POST", py "/summarize_article")])
                          (genai_api_key st) in
  (st, Ok (mkConfig (default [] news_api_key) (default [] gemini_api_key))).

(** ** [main.py]: the handlers *)

(** [raise v] for a [v] that is not an exception (here the list literal of
    line 75): Python raises a [TypeError] in its place. *)
Definition raise_non_exception {A} (v : json) : M A :=
  raise (Exn TypeError (py "exceptions must derive from BaseException")).

(** The element of the list comprehension of lines 81-86. *)
Definition map_article (article : json) : M Article :=
  t <- lift (get_default article (py "title") (JStr (py "No Title Available"))) ;;
  u <- lift (get_default article (py "url") (JStr (py "#"))) ;;
  d <- lift (get_default article (py "description")
               (JStr (py "No description available."))) ;;
  s <- lift (get_default article (py "source") (JObj ∅)) ;;
  n <- lift (get_default s (py "name") (JStr (py "Unknown Source"))) ;;
  Article_init t u d n.

(** [news_params], lines 60-65. *)
Definition news_params (cfg : Config) (category : pystr) : list (pystr * param) :=
  [ (py "category", PStr category);
    (py "language", PStr (py "en"));
    (py "apiKey", PStr (NEWS_API_KEY cfg));
    (py "pageSize", PInt 5) ].

(** [fetch_and_summarise_news(category)], lines 56-88. *)
Definition fetch_and_summarise_news (cfg : Config) (net : Requests.network)
    (category : pystr) : M (list Article) :=
  news_data <-
    try_except
      (news_response <- Requests.get net NEWS_API_URL (news_params cfg category) ;;
       lift (Requests.raise_for_status news_response) ;;;
       lift (Requests.json news_response))
      RequestException
      (fun e => raise (HTTPException 503
                         (py "NewsAPI request failed: " ++ str e))) ;;
  found <- lift (Json.get news_data (py "articles")) ;;
  (if negb (Json.truthy found) then raise_non_exception (JArr []) else ret tt) ;;;
  all_articles <- lift (getitem news_data (py "articles")) ;;
  articles_to_summarize_data <- lift (slice_to all_articles 5) ;;
  all_articles <- lift (getitem news_data (py "articles")) ;;
  items <- lift (iter all_articles) ;;
  articles <- comprehension map_article items ;;
  ret articles.

(** The JSON rendering of an [Article] can be encoded: none of its strings
    holds a lone surrogate. *)
Definition Article_encodable (a : Article) : bool :=
  utf8_encodable (title a) && utf8_encodable (url a)
  && from_option utf8_encodable true (description a)
  && from_option utf8_encodable true (source_name a).

(** The route [GET /fetch_news], with [response_model=List[Article]]: the
    query parameter [category] defaults to ["technology"]. *)
Definition fetch_news_route (cfg : Config) (net : Requests.network)
    (category : option pystr) : list event * response (list Article) :=
  serve (forallb Article_encodable)
        (fetch_and_summarise_news cfg net (default (py "technology") category)).

(** The prompt of line 103. *)
Definition prompt_of (content : pystr) : pystr :=
  py "Based on the following news article content, provide a clear and concise summary of about 3-4 sentences. Focus on the key takeaway:"
  ++ nl ++ nl ++ py "---" ++ nl ++ nl ++ content
  ++ nl ++ nl ++ py "---" ++ nl ++ nl ++ py "Summary:".

(** [summarize_article(request)], lines 92-115. *)
Definition summarize_article (llm : Genai.provider) (request : SummarizeRequest)
  : M SummaryResponse :=
  (if negb (PyStr.truthy (content request))
      || negb (PyStr.truthy (strip (content request)))
   then raise (HTTPException 400 (py "Content cannot be empty."))
   else ret tt) ;;;
  summary <-
    try_except
      (let model := Genai.mkModel GEMINI_MODEL_NAME in
       let prompt := prompt_of (content request) in
       response <- Genai.generate_content llm model prompt ;;
       text <- lift (Genai.text response) ;;
       ret (strip text))
      Exception
      (fun e =>
         perform (EvPrint (py "DEBUG: Gemini API request failed. Error: " ++ str e))
                 (Ok tt) ;;;
         raise (HTTPException 503 (py "Gemini API request failed: " ++ str e))) ;;
  let summary :=
    if negb (PyStr.truthy summary)
    then py "The AI model could not generate a summary for this content."
    else summary in
  ret (mkSummaryResponse summary).

(** The route [POST /summarize_article].  The summary is the ASCII sentence
    of line 113 or what [strip] leaves of the text of a genai reply, a
    protobuf string, which holds Unicode scalar values only: its encoding
    does not fail. *)
Definition summarize_article_route (llm : Genai.provider)
    (request : SummarizeRequest) : list event * response SummaryResponse :=
  serve (fun _ => true) (summarize_article llm request).

(** ** Provider records and the articles they stand for *)

Arguments py : simpl never.

(** A record as NewsAPI documents it: an object whose [title] and [url],
    when present, are strings, whose [description], when present, is a
    string or [null], and whose [source], when present, is an object whose
    [name], when present, is a string or [null]. *)
Definition str_or_absent (v : option json) : bool :=
  match v with
  | None | Some (JStr _) => true
  | Some _ => false
  end.

Definition nullable_str_or_absent (v : option json) : bool :=
  match v with
  | None | Some (JStr _) | Some JNull => true
  | Some _ => false
  end.

Definition well_typed_record (v : json) : bool :=
  match v with
  | JObj fields =>
      str_or_absent (fields !! py "title")
      && str_or_absent (fields !! py "url")
      && nullable_str_or_absent (fields !! py "description")
      && match fields !! py "source" with
         | None => true
         | Some (JObj source) => nullable_str_or_absent (source !! py "name")
         | Some _ => false
         end
  | _ => false
  end.

(** The strings the handler copies from a record ([title], [url],
    [description], [source.name]) can be encoded in UTF-8. *)
Definition field_encodable (v : option json) : bool :=
  match v with
  | Some (JStr s) => utf8_encodable s
  | _ => true
  end.

Definition encodable_record (v : json) : bool :=
  match v with
  | JObj fields =>
      field_encodable (fields !! py "title")
      && field_encodable (fields !! py "url")
      && field_encodable (fields !! py "description")
      && match fields !! py "source" with
         | Some (JObj source) => field_encodable (source !! py "name")
         | _ => true
         end
  | _ => true
  end.

(** How one field of a record shows in the article: a missing key gives the
    placeholder, a string is copied, a [null] is copied as [None]. *)
Inductive field_maps (placeholder : pystr) : option json -> option pystr -> Prop :=
| field_missing : field_maps placeholder None (Some placeholder)
| field_string (s : pystr) : field_maps placeholder (Some (JStr s)) (Some s)
| field_null : field_maps placeholder (Some JNull) None.

(** The same for [source.name]: the placeholder also stands for a missing
    [source]. *)
Inductive source_maps : option json -> option pystr -> Prop :=
| source_missing : source_maps None (Some (py "Unknown Source"))
| source_object (source : gmap pystr json) (out : option pystr) :
    field_maps (py "Unknown Source") (source !! py "name") out ->
    source_maps (Some (JObj source)) out.

(** The article a record stands for, field by field. *)
Inductive article_of : json -> Article -> Prop :=
| article_of_record (fields : gmap pystr json) (a : Article) :
    field_maps (py "No Title Available") (fields !! py "title") (Some (title a)) ->
    field_maps (py "#") (fields !! py "url") (Some (url a)) ->
    field_maps (py "No description available.") (fields !! py "description")
               (description a) ->
    source_maps (fields !! py "source") (source_name a) ->
    article_of (JObj fields) a.

(** The environment [os.getenv] reads has no usable value for [name]. *)
Definition absent_or_empty (environ : gmap pystr pystr) (name : pystr) : Prop :=
  os_getenv environ name = None \/ os_getenv environ name = Some [].

(** A failure of the outbound call to the news provider, with the text of
    the exception [requests] raises for it: an error of the call itself
    (connection, timeout, ...) or a response with a 4xx or a 5xx status. *)
Inductive provider_failure (cfg : Config) (net : Requests.network)
    (category : pystr) : pystr -> Prop :=
| network_error (e : exn) :
    net NEWS_API_URL (news_params cfg category) = Raise e ->
    isinstance e RequestException = true ->
    provider_failure cfg net category (str e)
| error_status (r : Requests.Response) :
    net NEWS_API_URL (news_params cfg category) = Ok r ->
    400 <= Requests.status_code r < 600 ->
    provider_failure cfg net category (Requests.http_error_msg r).

(** A failure of the call to the LLM for [content]: [generate_content]
    raises, or the reply has no text to read. *)
Inductive llm_failure (llm : Genai.provider) (content : pystr) : exn -> Prop :=
| llm_call_raises (e : exn) :
    llm GEMINI_MODEL_NAME (prompt_of content) = Raise e ->
    llm_failure llm content e
| llm_reply_unreadable (reply : Genai.GenerateContentResponse) (e : exn) :
    llm GEMINI_MODEL_NAME (prompt_of content) = Ok reply ->
    Genai.text reply = Raise e ->
    llm_failure llm content e.

(** The summary made of the text [t] the LLM returned (lines 106, 112-113). *)
Definition summary_of (t : pystr) : pystr :=
  match strip t with
  | [] => py "The AI model could not generate a summary for this content."
  | _ :: _ => strip t
  end.

(** ** Sample inputs *)

Definition sample_cfg : Config := mkConfig (py "news-key") (py "gemini-key").

(** A network that answers every request with [r]. *)
Definition answering (r : Requests.Response) : Requests.network :=
  fun _ _ => Ok r.

(** A response with the given status line whose body decodes to [doc]. *)
Definition response_with (status : Z) (reason : string) (doc : json)
  : Requests.Response :=
  Requests.mkResponse status (py reason) NEWS_API_URL (Ok doc).

(** The fields of a JSON object, from a literal. *)
Definition fields_of (l : list (string * json)) : gmap pystr json :=
  list_to_map (List.map (fun kv => (py (fst kv), snd kv)) l).

(** [{"status": "ok", "totalResults": 0, "articles": []}] *)
Definition no_articles_fields : gmap pystr json :=
  fields_of [ ("status", JStr (py "ok")); ("totalResults", JInt 0);
              ("articles", JArr []) ]%string.

(** A full record, and five records with keys missing or [null]. *)
Definition six_records : list json :=
  [ JObj (fields_of [ ("title", JStr (py "Chips"));
                      ("url", JStr (py "https://example.org/chips"));
                      ("description", JStr (py "A new chip."));
                      ("source", JObj (fields_of [ ("id", JNull);
                                                   ("name", JStr (py "Wire")) ])) ]);
    JObj (fields_of []);
    JObj (fields_of [ ("title", JStr (py "Only a title")) ]);
    JObj (fields_of [ ("url", JStr (py "https://example.org/2"));
                      ("description", JNull) ]);
    JObj (fields_of [ ("source", JObj (fields_of [ ("id", JStr (py "w")) ])) ]);
    JObj (fields_of [ ("source", JObj (fields_of [ ("name", JNull) ])) ]) ]%string.

Definition six_records_fields : gmap pystr json :=
  fields_of [ ("status", JStr (py "ok")); ("totalResults", JInt 6);
              ("articles", JArr six_records) ]%string.

(** The source of a record, and a record that has it. *)
Definition wire_source : gmap pystr json :=
  fields_of [ ("id", JNull); ("name", JStr (py "Wire")) ]%string.

Definition sourced_record : gmap pystr json :=
  fields_of [ ("title", JStr (py "Chips"));
              ("url", JStr (py "https://example.org/chips"));
              ("source", JObj wire_source) ]%string.

(** A record with a title and a [null] description. *)
Definition null_description_record : gmap pystr json :=
  fields_of [ ("title", JStr (py "Chips"));
              ("url", JStr (py "https://example.org/chips"));
              ("description", JNull) ]%string.

Definition null_description_fields : gmap pystr json :=
  fields_of [ ("articles", JArr [JObj null_description_record]) ]%string.

(** [{"articles": [{"title": null, "url": "https://example.org/chips"}]}] *)
Definition null_title_fields : gmap pystr json :=
  fields_of [ ("articles",
               JArr [JObj (fields_of
                             [ ("title", JNull);
                               ("url", JStr (py "https://example.org/chips")) ])])
            ]%string.

(** A title that ends in a lone surrogate (the JSON text
    ["Chips \ud83d"]), and a document with one record of that title. *)
Definition surrogate_title : pystr := py "Chips " ++ [55357%N].

Definition surrogate_title_fields : gmap pystr json :=
  fields_of [ ("articles",
               JArr [JObj (fields_of
                             [ ("title", JStr surrogate_title);
                               ("url", JStr (py "https://example.org/chips")) ])])
            ]%string.

(** A 300 answer whose body is a document with one article. *)
Definition multiple_choices_response : Requests.Response :=
  response_with 300 "Multiple Choices" (JObj null_description_fields).

(** An LLM that replies with the text [t], and one whose call raises [e]. *)
Definition replying (t : pystr) : Genai.provider :=
  fun _ _ => Ok (Genai.mkGenResponse (Ok t)).

Definition failing (e : exn) : Genai.provider :=
  fun _ _ => Raise e.

(** ** Documents and records the handler cannot use *)

(** The decoded document is an object whose [articles] is a non-empty
    list: the only documents that get past lines 74-78. *)
Definition has_articles (doc : json) : bool :=
  match doc with
  | JObj fields =>
      match fields !! py "articles" with
      | Some (JArr (_ :: _)) => true
      | _ => false
      end
  | _ => false
  end.

(** An item of [articles] on which lines 81-86 raise whatever the other
    fields are: it is not an object, or its [source] is present and not an
    object, or its [title] or [url] is [null]. *)
Definition unusable_record (v : json) : bool :=
  match v with
  | JObj fields =>
      match fields !! py "source" with
      | None | Some (JObj _) => false
      | Some _ => true
      end
      || match fields !! py "title" with Some JNull => true | _ => false end
      || match fields !! py "url" with Some JNull => true | _ => false end
  | _ => true
  end.

(** * Properties *)

(** ** Strings *)

Section StripFacts.

Lemma lstrip_blank (s : pystr) : blank s = true -> lstrip s = [].
Proof.
  induction s as [|c s IH]; simpl; [reflexivity|].
  destruct (isspace c); simpl; [exact IH | discriminate].
Qed.

(** What [lstrip] leaves starts with a character that is not a space. *)
Lemma lstrip_head (s : pystr) :
  match lstrip s with
  | [] => blank s = true
  | c :: _ => isspace c = false /\ blank s = false
  end.
Proof.
  induction s as [|c s IH]; simpl; [reflexivity|].
  destruct (isspace c) eqn:Hc; simpl.
  - exact IH.
  - rewrite Hc. split; reflexivity.
Qed.

Lemma lstrip_nil_blank (s : pystr) : lstrip s = [] -> blank s = true.
Proof.
  intros H. pose proof (lstrip_head s) as Hh. rewrite H in Hh. exact Hh.
Qed.

Lemma blank_rev (s : pystr) : blank (rev s) = blank s.
Proof.
  unfold blank. induction s as [|c s IH]; simpl; [reflexivity|].
  rewrite forallb_app, IH. simpl. rewrite andb_true_r. apply andb_comm.
Qed.

(** [s.strip()] is empty exactly when [s] holds nothing but whitespace. *)
Lemma strip_nil_iff_blank (s : pystr) : strip s = [] <-> blank s = true.
Proof.
  unfold strip, rstrip. split.
  - intros H.
    assert (Hl : lstrip (rev (lstrip s)) = []).
    { destruct (lstrip (rev (lstrip s))) as [|c l]; [reflexivity|].
      simpl in H. destruct (rev l); discriminate. }
    apply lstrip_nil_blank in Hl. rewrite blank_rev in Hl.
    pose proof (lstrip_head s) as Hh.
    destruct (lstrip s) as [|c l]; [exact Hh|].
    simpl in Hl. destruct Hh as [Hc _]. rewrite Hc in Hl. discriminate.
  - intros H. rewrite (lstrip_blank s H). reflexivity.
Qed.

(** The test of line 96, [not content or not content.strip()]. *)
Lemma empty_test_blank (s : pystr) :
  negb (PyStr.truthy s) || negb (PyStr.truthy (strip s)) = blank s.
Proof.
  destruct (blank s) eqn:Hb.
  - apply strip_nil_iff_blank in Hb. rewrite Hb. simpl. apply orb_true_r.
  - destruct s as [|c s]; [discriminate|]. simpl PyStr.truthy at 1. simpl negb at 1.
    destruct (strip (c :: s)) as [|c' l] eqn:Hs; [|reflexivity].
    apply strip_nil_iff_blank in Hs. congruence.
Qed.

End StripFacts.

Section StripShape.

Lemma lstrip_suffix (s : pystr) : exists p, s = p ++ lstrip s.
Proof.
  induction s as [|c s [p Hp]]; [exists []; reflexivity|].
  simpl. destruct (isspace c).
  - exists (c :: p). simpl. congruence.
  - exists []. reflexivity.
Qed.

Lemma lstrip_fixed (s : pystr) :
  match s with [] => True | c :: _ => isspace c = false end -> lstrip s = s.
Proof. destruct s as [|c s]; [reflexivity|]. simpl. intros ->. reflexivity. Qed.

Lemma lstrip_idem (s : pystr) : lstrip (lstrip s) = lstrip s.
Proof.
  apply lstrip_fixed. pose proof (lstrip_head s) as H.
  destruct (lstrip s); [exact I | apply H].
Qed.

(** What [strip] returns is the beginning of what [lstrip] returns. *)
Lemma strip_prefix_lstrip (s : pystr) : exists q, lstrip s = strip s ++ q.
Proof.
  unfold strip, rstrip.
  destruct (lstrip_suffix (rev (lstrip s))) as [p Hp].
  exists (rev p).
  rewrite <- rev_app_distr, <- Hp, rev_involutive. reflexivity.
Qed.

Lemma lstrip_strip (s : pystr) : lstrip (strip s) = strip s.
Proof.
  apply lstrip_fixed. destruct (strip_prefix_lstrip s) as [q Hq].
  pose proof (lstrip_head s) as H. rewrite Hq in H.
  destruct (strip s); [exact I | apply H].
Qed.

(** A stripped string has nothing left to strip. *)
Lemma strip_idem (s : pystr) : strip (strip s) = strip s.
Proof.
  unfold strip at 1. rewrite lstrip_strip.
  unfold rstrip, strip, rstrip. rewrite rev_involutive, lstrip_idem.
  reflexivity.
Qed.

End StripShape.

(** What [lstrip] removes is whitespace. *)
Lemma lstrip_split (s : pystr) :
  exists lead, s = lead ++ lstrip s /\ blank lead = true.
Proof.
  induction s as [|c s (lead & Hs & Hb)]; [exists []; split; reflexivity|].
  simpl. destruct (isspace c) eqn:Hc.
  - exists (c :: lead). simpl. rewrite Hc. split; [congruence | exact Hb].
  - exists []. split; reflexivity.
Qed.

Lemma last_head_rev (s : pystr) : list.last s = list.head (rev s).
Proof.
  induction s as [|c s _] using rev_ind; [reflexivity|].
  rewrite last_snoc, rev_app_distr. reflexivity.
Qed.

(** The shape of [s.strip()]: [s] is whitespace, then [s.strip()], then
    whitespace, and [s.strip()] neither starts nor ends with whitespace. *)
Lemma strip_decompose (s : pystr) :
  exists lead trail,
    s = lead ++ strip s ++ trail
    /\ blank lead = true /\ blank trail = true
    /\ (forall c, list.head (strip s) = Some c -> isspace c = false)
    /\ (forall c, list.last (strip s) = Some c -> isspace c = false).
Proof.
  destruct (lstrip_split s) as (lead & Hs & Hlead).
  destruct (lstrip_split (rev (lstrip s))) as (q & Hq & Hblank).
  exists lead, (rev q). repeat split.
  - rewrite Hs at 1. f_equal. unfold strip, rstrip.
    rewrite <- rev_app_distr, <- Hq, rev_involutive. reflexivity.
  - exact Hlead.
  - rewrite blank_rev. exact Hblank.
  - intros c Hc. pose proof (lstrip_strip s) as Hfix.
    destruct (strip s) as [|c' l]; [discriminate|]. injection Hc as ->.
    simpl in Hfix. destruct (isspace c) eqn:Hsp; [|reflexivity].
    exfalso. destruct (lstrip_suffix l) as [p Hp].
    apply (f_equal (@length N)) in Hfix. rewrite Hp in Hfix at 2.
    simpl in Hfix. rewrite length_app in Hfix. lia.
  - intros c. rewrite last_head_rev. unfold strip, rstrip.
    rewrite rev_involutive. intros Hc.
    pose proof (lstrip_head (rev (lstrip s))) as Hh.
    destruct (lstrip (rev (lstrip s))) as [|c' l]; [discriminate|].
    injection Hc as ->. apply Hh.
Qed.

(** ** Exceptions *)

(** Every modelled exception is caught by [except Exception]. *)
Lemma isinstance_Exception (e : exn) : isinstance e Exception = true.
Proof. destruct e as [c t|s d]; [destruct c|]; reflexivity. Qed.

(** ** The monad *)

Section MonadFacts.

Context {A B : Type}.

Lemma bind_lift_ok (a : A) (k : A -> M B) : bind (lift (Ok a)) k = k a.
Proof. unfold bind, lift. destruct (k a) as [t r]. reflexivity. Qed.

Lemma bind_lift_raise (e : exn) (k : A -> M B) :
  bind (lift (Raise e)) k = lift (Raise e).
Proof. reflexivity. Qed.

Lemma bind_ret (a : A) (k : A -> M B) : bind (ret a) k = k a.
Proof. apply bind_lift_ok. Qed.

Lemma bind_raise (e : exn) (k : A -> M B) : bind (raise e) k = raise e.
Proof. reflexivity. Qed.

Lemma trace_bind (m : M A) (k : A -> M B) :
  trace (bind m k) =
  match outcome m with
  | Ok a => trace m ++ trace (k a)
  | Raise _ => trace m
  end.
Proof.
  destruct m as [t [a|e]]; simpl; [|reflexivity].
  destruct (k a) as [t' r]. reflexivity.
Qed.

Lemma outcome_bind (m : M A) (k : A -> M B) :
  outcome (bind m k) =
  match outcome m with
  | Ok a => outcome (k a)
  | Raise e => Raise e
  end.
Proof.
  destruct m as [t [a|e]]; simpl; [|reflexivity].
  destruct (k a) as [t' r]. reflexivity.
Qed.

Lemma M_eta (m : M A) : m = (trace m, outcome m).
Proof. destruct m; reflexivity. Qed.

End MonadFacts.

Section ComprehensionFacts.

Context {A B : Type} (f : A -> M B).
Hypothesis f_pure : forall x, trace (f x) = [].

Lemma comprehension_pure (l : list A) : trace (comprehension f l) = [].
Proof.
  induction l as [|x l IH]; simpl; [reflexivity|].
  rewrite trace_bind, f_pure.
  destruct (outcome (f x)) as [y|e]; [|reflexivity].
  simpl. rewrite trace_bind, IH.
  destruct (outcome (comprehension f l)); reflexivity.
Qed.

(** When every element maps, the comprehension returns the images, one per
    element and in order. *)
Lemma comprehension_ok (l : list A) (ys : list B) :
  Forall2 (fun x y => outcome (f x) = Ok y) l ys ->
  outcome (comprehension f l) = Ok ys.
Proof.
  induction 1 as [|x y l ys Hxy _ IH]; simpl; [reflexivity|].
  rewrite outcome_bind, Hxy, outcome_bind, IH. reflexivity.
Qed.

(** When some element raises, so does the comprehension, with the exception
    of one of its elements. *)
Lemma comprehension_raise (l : list A) (x : A) (e : exn) :
  In x l -> outcome (f x) = Raise e ->
  exists x' e', In x' l /\ outcome (f x') = Raise e' /\
                outcome (comprehension f l) = Raise e'.
Proof.
  induction l as [|x0 l IH]; simpl; [tauto|].
  intros Hin He. rewrite outcome_bind.
  destruct (outcome (f x0)) as [y|e0] eqn:H0.
  - destruct Hin as [->|Hin]; [congruence|].
    destruct (IH Hin He) as (x' & e' & Hin' & He' & Hc).
    rewrite outcome_bind, Hc. exists x', e'. auto.
  - exists x0, e0. auto.
Qed.

End ComprehensionFacts.

(** ** [fetch_and_summarise_news] *)

Lemma bind_lift (A B : Type) (r : result A) (k : A -> M B) :
  bind (lift r) k = match r with Ok a => k a | Raise e => lift (Raise e) end.
Proof. destruct r; [apply bind_lift_ok | reflexivity]. Qed.

Lemma Article_init_pure (t u d n : json) : trace (Article_init t u d n) = [].
Proof.
  unfold Article_init. rewrite !bind_lift.
  repeat match goal with
         | |- context [match ?r with Ok _ => _ | Raise _ => _ end] =>
             destruct r; try reflexivity; rewrite ?bind_lift
         end.
Qed.

Lemma map_article_pure (v : json) : trace (map_article v) = [].
Proof.
  unfold map_article. rewrite !bind_lift.
  repeat match goal with
         | |- context [match ?r with Ok _ => _ | Raise _ => _ end] =>
             destruct r; try reflexivity; rewrite ?bind_lift
         end.
  apply Article_init_pure.
Qed.

(** A well-typed record maps to the article it stands for. *)
Lemma map_article_well_typed (v : json) :
  well_typed_record v = true ->
  exists a, map_article v = ([], Ok a) /\ article_of v a.
Proof.
  destruct v as [| | | | |items|fields]; try discriminate.
  unfold well_typed_record, map_article, get_default, Article_init.
  intros H.
  apply andb_prop in H as [H Hsrc]. apply andb_prop in H as [H Hd].
  apply andb_prop in H as [Ht Hu].
  rewrite !bind_lift_ok.
  destruct (fields !! py "title") as [[]|] eqn:Et; try discriminate;
  destruct (fields !! py "url") as [[]|] eqn:Eu; try discriminate;
  destruct (fields !! py "description") as [[]|] eqn:Ed; try discriminate;
  destruct (fields !! py "source") as [[| | | | | |source]|] eqn:Es;
    try discriminate; simpl default; rewrite ?lookup_empty;
  try (destruct (source !! py "name") as [[]|] eqn:En; try discriminate);
  (eexists; split;
   [ simpl; rewrite ?En; reflexivity
   | constructor; simpl; rewrite ?Et, ?Eu, ?Ed, ?Es; constructor;
     rewrite ?En; constructor ]).
Qed.

Section FetchNews.

Variable cfg : Config.
Variable net : Requests.network.
Variable category : pystr.

Let request : event := EvHttpGet NEWS_API_URL (news_params cfg category).

(** The outbound call made and answered by a decoded document, the handler
    goes on with that document. *)
Lemma fetch_decoded (r : Requests.Response) (fields : gmap pystr json)
    (items : list json) :
  net NEWS_API_URL (news_params cfg category) = Ok r ->
  Requests.raise_for_status r = Ok tt ->
  Requests.json r = Ok (JObj fields) ->
  fields !! py "articles" = Some (JArr items) ->
  items <> [] ->
  fetch_and_summarise_news cfg net category
  = ([request], outcome (comprehension map_article items)).
Proof.
  intros Hnet Hst Hjson Hart Hne.
  unfold fetch_and_summarise_news, Requests.get, perform.
  rewrite Hnet. cbn [bind try_except]. rewrite Hst. cbn [bind lift try_except].
  rewrite Hjson. cbn [bind lift try_except Json.get getitem].
  rewrite Hart. cbn [default Json.truthy].
  destruct items as [|x items']; [congruence|].
  cbn [negb bind ret slice_to iter lift app].
  rewrite (M_eta (comprehension map_article (x :: items'))).
  rewrite (comprehension_pure map_article map_article_pure).
  destruct (outcome (comprehension map_article (x :: items'))); reflexivity.
Qed.

(** No article to show: line 75 is reached. *)
Lemma fetch_no_articles (r : Requests.Response) (fields : gmap pystr json) :
  net NEWS_API_URL (news_params cfg category) = Ok r ->
  Requests.raise_for_status r = Ok tt ->
  Requests.json r = Ok (JObj fields) ->
  fields !! py "articles" = None \/ fields !! py "articles" = Some (JArr []) ->
  fetch_and_summarise_news cfg net category
  = ([request],
     Raise (Exn TypeError (py "exceptions must derive from BaseException"))).
Proof.
  intros Hnet Hst Hjson Hart.
  unfold fetch_and_summarise_news, Requests.get, perform.
  rewrite Hnet. cbn [bind try_except]. rewrite Hst. cbn [bind lift try_except].
  rewrite Hjson. cbn [bind lift try_except Json.get].
  destruct Hart as [-> | ->]; reflexivity.
Qed.

(** An exception of the [requests] family, from the call or from the status
    check, is turned into a 503. *)
Lemma fetch_request_failed (e : exn) :
  isinstance e RequestException = true ->
  net NEWS_API_URL (news_params cfg category) = Raise e \/
  (exists r, net NEWS_API_URL (news_params cfg category) = Ok r /\
             Requests.raise_for_status r = Raise e) ->
  fetch_and_summarise_news cfg net category
  = ([request],
     Raise (HTTPException 503 (py "NewsAPI request failed: " ++ str e))).
Proof.
  intros Hinst [Hnet | (r & Hnet & Hst)];
    unfold fetch_and_summarise_news, Requests.get, perform; rewrite Hnet;
    cbn [bind try_except]; rewrite ?Hst; cbn [bind lift try_except];
    rewrite Hinst; reflexivity.
Qed.

(** Whatever happens, the handler performs the one [requests.get] and
    nothing else. *)
Lemma fetch_trace :
  trace (fetch_and_summarise_news cfg net category) = [request].
Proof.
  unfold fetch_and_summarise_news.
  rewrite trace_bind.
  set (call := try_except _ _ _).
  assert (Hcall : trace call = [request]).
  { subst call. unfold Requests.get, perform.
    destruct (net NEWS_API_URL (news_params cfg category)) as [r|e];
      cbn [bind try_except].
    - destruct (Requests.raise_for_status r) as [[]|e]; cbn [bind lift try_except].
      + destruct (Requests.json r) as [j|e]; cbn [try_except]; [reflexivity|].
        destruct (isinstance e RequestException); reflexivity.
      + destruct (isinstance e RequestException); reflexivity.
    - destruct (isinstance e RequestException); reflexivity. }
  rewrite Hcall.
  destruct (outcome call) as [news_data|e]; [|reflexivity].
  cbv beta. rewrite bind_lift.
  destruct (Json.get news_data (py "articles")) as [found|e];
    [|apply app_nil_r].
  destruct (Json.truthy found); cbn [negb]; [|reflexivity].
  rewrite bind_ret, !bind_lift.
  repeat match goal with
         | |- context [match ?r with Ok _ => _ | Raise _ => _ end] =>
             destruct r; try reflexivity; rewrite ?bind_lift
         end.
  rewrite trace_bind, (comprehension_pure map_article map_article_pure).
  match goal with |- context [outcome ?m] => destruct (outcome m) end;
    reflexivity.
Qed.

End FetchNews.

Lemma get_default_raises (v : json) (key : pystr) (dflt : json) (e : exn) :
  get_default v key dflt = Raise e -> exists c t, e = Exn c t.
Proof. destruct v; intros H; try discriminate; injection H as <-; eauto. Qed.

Lemma validate_str_raises (field : pystr) (v : json) (e : exn) :
  Pydantic.validate_str field v = Raise e -> exists c t, e = Exn c t.
Proof. destruct v; intros H; try discriminate; injection H as <-; eauto. Qed.

Lemma validate_optional_str_raises (field : pystr) (v : json) (e : exn) :
  Pydantic.validate_optional_str field v = Raise e -> exists c t, e = Exn c t.
Proof. destruct v; intros H; try discriminate; injection H as <-; eauto. Qed.

(** [map_article] raises built-in or pydantic errors only, never an
    [HTTPException]. *)
Lemma map_article_raises (v : json) (e : exn) :
  outcome (map_article v) = Raise e -> exists c t, e = Exn c t.
Proof.
  unfold map_article, Article_init. rewrite !bind_lift.
  repeat match goal with
         | |- context [match ?r with Ok _ => _ | Raise _ => _ end] =>
             destruct r eqn:?; rewrite ?bind_lift; cbn [lift outcome snd ret]
         end;
    intros H; try discriminate; injection H as ->;
    eauto using get_default_raises, validate_str_raises,
      validate_optional_str_raises.
Qed.

(** A record whose [title] is [null] is refused by the [Article] model, and
    a [null] for [source] has no [get]. *)
Lemma map_article_null_title (fields : gmap pystr json) :
  fields !! py "title" = Some JNull ->
  exists e, outcome (map_article (JObj fields)) = Raise e.
Proof.
  intros Ht. unfold map_article, Article_init, get_default. rewrite Ht.
  rewrite !bind_lift_ok. rewrite !bind_lift.
  destruct (match default (JObj ∅) (fields !! py "source") with
            | JObj f => Ok (default (JStr (py "Unknown Source")) (f !! py "name"))
            | _ => _ end); [|eauto].
  cbn [default Pydantic.validate_str]. eauto.
Qed.

Lemma map_article_null_source (fields : gmap pystr json) :
  fields !! py "source" = Some JNull ->
  exists e, outcome (map_article (JObj fields)) = Raise e.
Proof.
  intros Hs. unfold map_article, get_default. rewrite Hs.
  rewrite !bind_lift_ok. cbn [default]. rewrite bind_lift. eauto.
Qed.

(** With well-typed records only, every record maps. *)
Lemma comprehension_well_typed (items : list json) :
  Forall (fun v => well_typed_record v = true) items ->
  exists articles,
    outcome (comprehension map_article items) = Ok articles
    /\ Forall2 article_of items articles.
Proof.
  intros Hwt.
  assert (Hall : exists articles,
    Forall2 (fun x y => outcome (map_article x) = Ok y) items articles
    /\ Forall2 article_of items articles).
  { induction Hwt as [|x l Hx _ IH].
    - exists []. split; constructor.
    - destruct (map_article_well_typed x Hx) as (a & Ha & Hof).
      destruct IH as (l' & H1 & H2).
      exists (a :: l'). split; constructor; try assumption.
      rewrite Ha. reflexivity. }
  destruct Hall as (articles & Hok & Hof).
  exists articles. split; [|assumption].
  apply comprehension_ok, Hok.
Qed.

(** With a record that does not map, the comprehension raises a built-in or
    pydantic error. *)
Lemma comprehension_bad_record (items : list json) (x : json) :
  In x items -> (exists e, outcome (map_article x) = Raise e) ->
  exists c t, outcome (comprehension map_article items) = Raise (Exn c t).
Proof.
  intros Hin [e He].
  destruct (comprehension_raise map_article items x e Hin He)
    as (x' & e' & _ & He' & Hc).
  destruct (map_article_raises x' e' He') as (c & t & ->). eauto.
Qed.

(** The strings of an article come from the record or from the
    placeholders: when those of the record can be encoded, so can the
    article. *)
Lemma field_maps_encodable (placeholder : pystr) (v : option json)
    (out : option pystr) :
  field_maps placeholder v out ->
  utf8_encodable placeholder = true ->
  field_encodable v = true ->
  from_option utf8_encodable true out = true.
Proof. intros [] Hph Hv; cbn in *; assumption || reflexivity. Qed.

Lemma article_of_encodable (v : json) (a : Article) :
  article_of v a -> encodable_record v = true -> Article_encodable a = true.
Proof.
  intros [fields a' Ht Hu Hd Hs] Henc. cbn [encodable_record] in Henc.
  apply andb_prop in Henc as [Henc Hes]. apply andb_prop in Henc as [Henc Hed].
  apply andb_prop in Henc as [Het Heu].
  unfold Article_encodable. repeat (apply andb_true_intro; split).
  - exact (field_maps_encodable _ _ _ Ht ltac:(vm_compute; reflexivity) Het).
  - exact (field_maps_encodable _ _ _ Hu ltac:(vm_compute; reflexivity) Heu).
  - exact (field_maps_encodable _ _ _ Hd ltac:(vm_compute; reflexivity) Hed).
  - destruct Hs as [|source out Hn]; [vm_compute; reflexivity|].
    exact (field_maps_encodable _ _ _ Hn ltac:(vm_compute; reflexivity) Hes).
Qed.

Lemma articles_encodable (items : list json) (articles : list Article) :
  Forall2 article_of items articles ->
  Forall (fun v => encodable_record v = true) items ->
  forallb Article_encodable articles = true.
Proof.
  induction 1 as [|x a l l' Hxa _ IH]; [reflexivity|].
  intros Henc. apply Forall_cons_1 in Henc as [Hx Hl].
  cbn [forallb]. rewrite (article_of_encodable x a Hxa Hx), (IH Hl). reflexivity.
Qed.

(** *** Claims on [GET /fetch_news] *)

(** C1 -- what the code does when the provider's payload has no [articles]
    key or an empty [articles] list: the handler does not return an empty
    list.  Line 75 executes [raise []]; a list is not an exception, Python
    raises [TypeError] in its place, nothing catches it and the request is
    answered with status 500. *)
Theorem fetch_news_without_articles_is_500 (cfg : Config)
    (net : Requests.network) (category : option pystr)
    (r : Requests.Response) (fields : gmap pystr json) :
  net NEWS_API_URL (news_params cfg (default (py "technology") category)) = Ok r ->
  Requests.raise_for_status r = Ok tt ->
  Requests.json r = Ok (JObj fields) ->
  fields !! py "articles" = None \/ fields !! py "articles" = Some (JArr []) ->
  snd (fetch_news_route cfg net category) = InternalServerError
  /\ status (snd (fetch_news_route cfg net category)) = 500.
Proof.
  intros Hnet Hst Hjson Hart. unfold fetch_news_route, serve.
  rewrite (fetch_no_articles _ _ _ r fields Hnet Hst Hjson Hart).
  split; reflexivity.
Qed.

(** C2, as the code has it -- for a payload whose [articles] is a non-empty
    list of N records, each of the shape the [Article] model admits
    ([title] and [url] strings when present, [description] and
    [source.name] strings or [null] when present, [source] an object when
    present) and with strings that can be encoded in UTF-8, the route
    answers 200 with exactly N articles, one per record and in order,
    however long the list is; in each, a missing [title], [description],
    [source.name] or [url] shows as its placeholder and a present field is
    copied unchanged. *)
Theorem fetch_news_maps_every_article (cfg : Config)
    (net : Requests.network) (category : option pystr)
    (r : Requests.Response) (fields : gmap pystr json) (items : list json) :
  net NEWS_API_URL (news_params cfg (default (py "technology") category)) = Ok r ->
  Requests.raise_for_status r = Ok tt ->
  Requests.json r = Ok (JObj fields) ->
  fields !! py "articles" = Some (JArr items) ->
  items <> [] ->
  Forall (fun v => well_typed_record v = true) items ->
  Forall (fun v => encodable_record v = true) items ->
  exists articles,
    snd (fetch_news_route cfg net category) = Success articles
    /\ status (snd (fetch_news_route cfg net category)) = 200
    /\ length articles = length items
    /\ Forall2 article_of items articles.
Proof.
  intros Hnet Hst Hjson Hart Hne Hwt Henc. unfold fetch_news_route, serve.
  rewrite (fetch_decoded _ _ _ r fields items Hnet Hst Hjson Hart Hne).
  destruct (comprehension_well_typed items Hwt) as (articles & Hok & Hof).
  exists articles. cbn [trace outcome fst snd]. rewrite Hok.
  cbn [respond]. rewrite (articles_encodable items articles Hof Henc).
  repeat split; try assumption.
  symmetry. eapply Forall2_length, Hof.
Qed.

(** C5, as the code has it -- when the outbound call fails, by an error of
    the call itself or by a response with a 4xx or 5xx status, the route
    answers 503 and the detail is ["NewsAPI request failed: "] followed by
    the text of the error. *)
Theorem fetch_news_provider_failure_is_503 (cfg : Config)
    (net : Requests.network) (category : option pystr) (text : pystr) :
  provider_failure cfg net (default (py "technology") category) text ->
  snd (fetch_news_route cfg net category)
  = ErrorDetail 503 (py "NewsAPI request failed: " ++ text)
  /\ text `suffix_of` py "NewsAPI request failed: " ++ text.
Proof.
  intros Hfail. split; [|apply suffix_app_r; reflexivity].
  unfold fetch_news_route, serve.
  destruct Hfail as [e Hnet Hinst | r Hnet Hrange].
  - rewrite (fetch_request_failed _ _ _ e Hinst (or_introl Hnet)). reflexivity.
  - assert (Hraise : Requests.raise_for_status r
                     = Raise (Exn HTTPError (Requests.http_error_msg r))).
    { unfold Requests.raise_for_status, Requests.http_error_msg.
      destruct ((400 <=? Requests.status_code r) && (Requests.status_code r <? 500))
        eqn:H4.
      - destruct (str_of_int (Requests.status_code r)); reflexivity.
      - destruct ((500 <=? Requests.status_code r) && (Requests.status_code r <? 600))
          eqn:H5.
        + destruct (str_of_int (Requests.status_code r)); reflexivity.
        + exfalso. apply andb_false_iff in H4, H5. lia. }
    rewrite (fetch_request_failed _ _ _ (Exn HTTPError (Requests.http_error_msg r))
               eq_refl (or_intror (ex_intro _ r (conj Hnet Hraise)))).
    reflexivity.
Qed.

(** C7 -- whatever the category (["technology"] when the query parameter is
    omitted) and whatever the provider answers, the route performs exactly
    one outbound request and no other effect: a GET on the NewsAPI URL with
    that category, language ["en"], the configured key and page size 5. *)
Theorem fetch_news_one_outbound_request (cfg : Config)
    (net : Requests.network) (category : option pystr) :
  fst (fetch_news_route cfg net category)
  = [EvHttpGet NEWS_API_URL
       [ (py "category", PStr (default (py "technology") category));
         (py "language", PStr (py "en"));
         (py "apiKey", PStr (NEWS_API_KEY cfg));
         (py "pageSize", PInt 5) ]].
Proof.
  unfold fetch_news_route, serve. cbn [fst]. apply fetch_trace.
Qed.

(** C9 -- a key bound to [null] is present, so [get] returns the [null] and
    not the default.  A [null] [description] therefore reaches the client as
    a null description in the article of that record (the records being
    such that the request succeeds: of the shape the [Article] model admits
    and with strings that can be encoded); a [null] [title] or
    [source] is not replaced by a placeholder either: the [Article] model
    refuses the former and the latter has no [get], and the request
    fails. *)
Theorem null_field_is_not_defaulted (cfg : Config)
    (net : Requests.network) (category : option pystr)
    (r : Requests.Response) (fields : gmap pystr json) (items : list json)
    (i : nat) (record : gmap pystr json) :
  net NEWS_API_URL (news_params cfg (default (py "technology") category)) = Ok r ->
  Requests.raise_for_status r = Ok tt ->
  Requests.json r = Ok (JObj fields) ->
  fields !! py "articles" = Some (JArr items) ->
  items !! i = Some (JObj record) ->
  (forall key dflt, record !! key = Some JNull ->
     get_default (JObj record) key dflt = Ok JNull)
  /\ (record !! py "description" = Some JNull ->
      Forall (fun v => well_typed_record v = true) items ->
      Forall (fun v => encodable_record v = true) items ->
      exists articles a,
        snd (fetch_news_route cfg net category) = Success articles
        /\ articles !! i = Some a
        /\ description a = None)
  /\ (record !! py "title" = Some JNull \/ record !! py "source" = Some JNull ->
      snd (fetch_news_route cfg net category) = InternalServerError).
Proof.
  intros Hnet Hst Hjson Hart Hi.
  assert (Hne : items <> []) by (intros ->; discriminate).
  unfold fetch_news_route, serve.
  rewrite (fetch_decoded _ _ _ r fields items Hnet Hst Hjson Hart Hne).
  cbn [trace outcome fst snd].
  split; [|split].
  - intros key dflt Hk. cbn [get_default]. rewrite Hk. reflexivity.
  - intros Hd Hwt Henc.
    destruct (comprehension_well_typed items Hwt) as (articles & Hok & Hof).
    destruct (Forall2_lookup_l _ _ _ _ _ Hof Hi) as (a & Ha & Hrec).
    exists articles, a. rewrite Hok. cbn [respond].
    rewrite (articles_encodable items articles Hof Henc).
    repeat split; [assumption|].
    inversion Hrec as [? ? _ _ Hdesc _]; subst.
    rewrite Hd in Hdesc. inversion Hdesc. reflexivity.
  - intros Hnull.
    assert (Hin : In (JObj record) items).
    { apply list_elem_of_In, list_elem_of_lookup. eauto. }
    destruct (comprehension_bad_record items (JObj record) Hin) as (c & t & ->);
      [|reflexivity].
    destruct Hnull; [apply map_article_null_title | apply map_article_null_source];
      assumption.
Qed.

(** ** [summarize_article] *)

Section Summarize.

Variable llm : Genai.provider.
Variable article_content : pystr.

Let request : SummarizeRequest := mkSummarizeRequest article_content.
Let call : event := EvGenerateContent GEMINI_MODEL_NAME (prompt_of article_content).

(** Empty or blank content: the handler is the [raise] of line 97. *)
Lemma summarize_blank :
  blank article_content = true ->
  summarize_article llm request
  = raise (HTTPException 400 (py "Content cannot be empty.")).
Proof.
  intros Hb. unfold summarize_article. cbn [content request].
  rewrite empty_test_blank, Hb. reflexivity.
Qed.

(** The LLM returned the text [t]. *)
Lemma summarize_text (reply : Genai.GenerateContentResponse) (t : pystr) :
  blank article_content = false ->
  llm GEMINI_MODEL_NAME (prompt_of article_content) = Ok reply ->
  Genai.text reply = Ok t ->
  summarize_article llm request
  = ([call], Ok (mkSummaryResponse (summary_of t))).
Proof.
  intros Hb Hllm Ht. unfold summarize_article. cbn [content request].
  rewrite empty_test_blank, Hb. rewrite bind_ret.
  unfold Genai.generate_content, perform. cbn [Genai.model_name].
  rewrite Hllm. cbn [bind try_except]. rewrite Ht. cbn [bind lift ret try_except].
  unfold summary_of. destruct (strip t); reflexivity.
Qed.

(** The LLM call failed with [e]. *)
Lemma summarize_failure (e : exn) :
  blank article_content = false ->
  llm_failure llm article_content e ->
  summarize_article llm request
  = ([call; EvPrint (py "DEBUG: Gemini API request failed. Error: " ++ str e)],
     Raise (HTTPException 503 (py "Gemini API request failed: " ++ str e))).
Proof.
  intros Hb Hfail. unfold summarize_article. cbn [content request].
  rewrite empty_test_blank, Hb. rewrite bind_ret.
  unfold Genai.generate_content, perform. cbn [Genai.model_name].
  destruct Hfail as [e Hllm | reply e Hllm Ht]; rewrite Hllm;
    cbn [bind try_except]; rewrite ?Ht; cbn [bind lift try_except];
    rewrite isinstance_Exception; reflexivity.
Qed.

End Summarize.

(** *** Claims on [POST /summarize_article] *)

(** C3 -- a request whose [content] is the empty string or only whitespace
    is answered with status 400 and the detail ["Content cannot be
    empty."]. *)
Theorem summarize_blank_content_is_400 (llm : Genai.provider) (content : pystr) :
  blank content = true ->
  snd (summarize_article_route llm (mkSummarizeRequest content))
  = ErrorDetail 400 (py "Content cannot be empty.")
  /\ status (snd (summarize_article_route llm (mkSummarizeRequest content))) = 400.
Proof.
  intros Hb. unfold summarize_article_route, serve.
  rewrite (summarize_blank llm content Hb). split; reflexivity.
Qed.

(** C4 -- for a content that is not empty (in the sense of line 96: not
    empty and not only whitespace) and a reply of the LLM with text [t],
    the route answers 200 with a summary that is [t] trimmed of surrounding
    whitespace: [t] is whitespace, then a text [core] that neither starts
    nor ends with whitespace, then whitespace, and the summary is [core],
    or the fixed sentence when [core] is empty. *)
Theorem summarize_returns_trimmed_text (llm : Genai.provider) (content : pystr)
    (reply : Genai.GenerateContentResponse) (t : pystr) :
  blank content = false ->
  llm GEMINI_MODEL_NAME (prompt_of content) = Ok reply ->
  Genai.text reply = Ok t ->
  exists body lead core trail,
    snd (summarize_article_route llm (mkSummarizeRequest content)) = Success body
    /\ status (snd (summarize_article_route llm (mkSummarizeRequest content))) = 200
    /\ t = lead ++ core ++ trail
    /\ blank lead = true /\ blank trail = true
    /\ (forall c, list.head core = Some c -> isspace c = false)
    /\ (forall c, list.last core = Some c -> isspace c = false)
    /\ (core <> [] -> summary body = core)
    /\ (core = [] ->
        summary body
        = py "The AI model could not generate a summary for this content.").
Proof.
  intros Hb Hllm Ht.
  destruct (strip_decompose t) as (lead & trail & Hsplit & Hlead & Htrail & Hh & Hl).
  exists (mkSummaryResponse (summary_of t)), lead, (strip t), trail.
  unfold summarize_article_route, serve.
  rewrite (summarize_text llm content reply t Hb Hllm Ht).
  cbn [trace outcome fst snd respond status summary]. unfold summary_of.
  repeat split; try assumption.
  - destruct (strip t); [congruence | reflexivity].
  - intros ->. reflexivity.
Qed.

(** C6 -- when the LLM call fails with [e] (the call raises, or the reply
    has no readable text), the route answers 503, the detail is ["Gemini
    API request failed: "] followed by the text of [e], and a line with
    that text is printed. *)
Theorem summarize_llm_failure_is_503 (llm : Genai.provider) (content : pystr)
    (e : exn) :
  blank content = false ->
  llm_failure llm content e ->
  snd (summarize_article_route llm (mkSummarizeRequest content))
  = ErrorDetail 503 (py "Gemini API request failed: " ++ str e)
  /\ str e `suffix_of` py "Gemini API request failed: " ++ str e
  /\ In (EvPrint (py "DEBUG: Gemini API request failed. Error: " ++ str e))
        (fst (summarize_article_route llm (mkSummarizeRequest content))).
Proof.
  intros Hb Hfail. unfold summarize_article_route, serve.
  rewrite (summarize_failure llm content e Hb Hfail).
  cbn [trace outcome fst snd respond].
  split; [reflexivity|]. split; [apply suffix_app_r; reflexivity|].
  right. left. reflexivity.
Qed.

(** C10 -- for an empty or blank [content] the handler is nothing but the
    [raise] of the 400 error: whatever the LLM provider would answer, the
    route performs no effect at all, so no call to the LLM with any
    prompt. *)
Theorem summarize_blank_content_no_llm_call (llm : Genai.provider)
    (content : pystr) :
  blank content = true ->
  summarize_article llm (mkSummarizeRequest content)
  = raise (HTTPException 400 (py "Content cannot be empty."))
  /\ fst (summarize_article_route llm (mkSummarizeRequest content)) = []
  /\ forall model prompt,
       ~ In (EvGenerateContent model prompt)
            (fst (summarize_article_route llm (mkSummarizeRequest content))).
Proof.
  intros Hb. unfold summarize_article_route, serve.
  rewrite (summarize_blank llm content Hb).
  repeat split. intros model prompt [].
Qed.

(** ** Startup *)

(** With both keys set, the module runs to its end: [genai] is configured
    and the three routes are registered. *)
Lemma startup_with_both_keys (dotenv environ : gmap pystr pystr)
    (news_key gemini_key : pystr) :
  os_getenv (load_dotenv dotenv environ) (py "NEWS_API_KEY") = Some news_key ->
  os_getenv (load_dotenv dotenv environ) (py "GEMINI_API_KEY") = Some gemini_key ->
  news_key <> [] -> gemini_key <> [] ->
  main_module dotenv environ
  = (mkModuleState [ (py "GET", py "/"); (py "GET", py "/fetch_news");
                     (py "POST", py "/summarize_article") ]
                   (Some gemini_key),
     Ok (mkConfig news_key gemini_key)).
Proof.
  intros Hn Hg Hn' Hg'. unfold main_module. rewrite Hn, Hg.
  destruct news_key; [congruence|]. destruct gemini_key; [congruence|].
  reflexivity.
Qed.

(** C8 -- when, once [load_dotenv] has run, the environment has no value or
    an empty value for [NEWS_API_KEY] or for [GEMINI_API_KEY], running the
    module ends in a [RuntimeError]; at that point no route has been
    registered and [genai] has not been configured. *)
Theorem startup_fails_without_keys (dotenv environ : gmap pystr pystr) :
  absent_or_empty (load_dotenv dotenv environ) (py "NEWS_API_KEY")
  \/ absent_or_empty (load_dotenv dotenv environ) (py "GEMINI_API_KEY") ->
  exists msg,
    main_module dotenv environ
    = (mkModuleState [] None, Raise (Exn RuntimeError msg)).
Proof.
  intros Habs. unfold main_module.
  assert (Hfalse : forall name,
            absent_or_empty (load_dotenv dotenv environ) name ->
            getenv_truthy (os_getenv (load_dotenv dotenv environ) name) = false).
  { intros name [H | H]; rewrite H; reflexivity. }
  destruct (getenv_truthy (os_getenv (load_dotenv dotenv environ)
                                     (py "NEWS_API_KEY")))
    eqn:Hnews; cbn [negb]; [|eauto].
  destruct Habs as [Habs | Habs]; apply Hfalse in Habs; [congruence|].
  rewrite Habs. cbn [negb]. eauto.
Qed.

(** ** The claims at sample inputs *)

(** C1 at [{"status": "ok", "totalResults": 0, "articles": []}], status 200:
    the answer is a 500. *)
Lemma fetch_news_without_articles_is_500_witness :
  snd (fetch_news_route sample_cfg
         (answering (response_with 200 "OK" (JObj no_articles_fields))) None)
  = InternalServerError
  /\ status (snd (fetch_news_route sample_cfg
                    (answering (response_with 200 "OK" (JObj no_articles_fields)))
                    None)) = 500.
Proof.
  apply (fetch_news_without_articles_is_500 sample_cfg _ None
           (response_with 200 "OK" (JObj no_articles_fields)) no_articles_fields);
    [reflexivity | reflexivity | reflexivity | right; vm_compute; reflexivity].
Defined.

(** C2 at six records: six articles come back. *)
Lemma fetch_news_maps_every_article_witness :
  exists articles,
    snd (fetch_news_route sample_cfg
           (answering (response_with 200 "OK" (JObj six_records_fields))) None)
    = Success articles
    /\ status (snd (fetch_news_route sample_cfg
                      (answering (response_with 200 "OK" (JObj six_records_fields)))
                      None)) = 200
    /\ length articles = length six_records
    /\ Forall2 article_of six_records articles.
Proof.
  apply (fetch_news_maps_every_article sample_cfg _ None
           (response_with 200 "OK" (JObj six_records_fields))
           six_records_fields six_records);
    [ reflexivity | reflexivity | reflexivity | vm_compute; reflexivity
    | discriminate
    | repeat first [ apply Forall_nil
                   | apply Forall_cons; [vm_compute; reflexivity|] ]
    | repeat first [ apply Forall_nil
                   | apply Forall_cons; [vm_compute; reflexivity|] ] ].
Defined.

(** C2 as stated fails at records the [Article] model or the encoding of
    the answer refuses: with one record whose [title] is [null], and with
    one record whose title holds a lone surrogate, the list is not empty and
    the route answers 500 instead of one article. *)
Lemma fetch_news_refused_title_is_500 :
  snd (fetch_news_route sample_cfg
         (answering (response_with 200 "OK" (JObj null_title_fields))) None)
  = InternalServerError
  /\ snd (fetch_news_route sample_cfg
            (answering (response_with 200 "OK" (JObj surrogate_title_fields)))
            None)
     = InternalServerError.
Proof. split; vm_compute; reflexivity. Qed.

(** C5 as stated fails at a status that is neither 2xx nor 4xx/5xx: a 300
    response whose body is a document with one article is served as a
    200. *)
Lemma fetch_news_status_300_is_served :
  ~ (200 <= Requests.status_code multiple_choices_response < 300)
  /\ status (snd (fetch_news_route sample_cfg
                    (answering multiple_choices_response) None)) = 200
  /\ status (snd (fetch_news_route sample_cfg
                    (answering multiple_choices_response) None)) <> 503.
Proof.
  split; [|split].
  - cbn. lia.
  - vm_compute. reflexivity.
  - vm_compute. discriminate.
Qed.

(** C5, as the code has it, at a 404. *)
Lemma fetch_news_provider_failure_is_503_witness :
  snd (fetch_news_route sample_cfg
         (answering (response_with 404 "Not Found" JNull)) None)
  = ErrorDetail 503
      (py "NewsAPI request failed: "
       ++ Requests.http_error_msg (response_with 404 "Not Found" JNull))
  /\ Requests.http_error_msg (response_with 404 "Not Found" JNull)
     `suffix_of` py "NewsAPI request failed: "
       ++ Requests.http_error_msg (response_with 404 "Not Found" JNull).
Proof.
  apply (fetch_news_provider_failure_is_503 sample_cfg
           (answering (response_with 404 "Not Found" JNull)) None).
  apply (error_status _ _ _ (response_with 404 "Not Found" JNull));
    [reflexivity | cbn; lia].
Defined.

(** C9 at a record with a [null] description. *)
Lemma null_field_is_not_defaulted_witness :
  exists articles a,
    snd (fetch_news_route sample_cfg
           (answering (response_with 200 "OK" (JObj null_description_fields)))
           None) = Success articles
    /\ articles !! 0%nat = Some a
    /\ description a = None.
Proof.
  destruct (null_field_is_not_defaulted sample_cfg
              (answering (response_with 200 "OK" (JObj null_description_fields)))
              None (response_with 200 "OK" (JObj null_description_fields))
              null_description_fields [JObj null_description_record] 0%nat
              null_description_record)
    as (_ & Hdesc & _);
    [ reflexivity | reflexivity | reflexivity | vm_compute; reflexivity
    | reflexivity | ].
  apply Hdesc; [vm_compute; reflexivity | |];
    (apply Forall_cons; [vm_compute; reflexivity | apply Forall_nil]).
Defined.

(** C3 at three spaces. *)
Lemma summarize_blank_content_is_400_witness :
  snd (summarize_article_route (replying (py "A summary."))
         (mkSummarizeRequest (py "   ")))
  = ErrorDetail 400 (py "Content cannot be empty.")
  /\ status (snd (summarize_article_route (replying (py "A summary."))
                    (mkSummarizeRequest (py "   ")))) = 400.
Proof.
  apply (summarize_blank_content_is_400 (replying (py "A summary.")) (py "   ")).
  vm_compute. reflexivity.
Defined.

(** C4 at a reply with spaces around its text: the summary is
    ["A summary."]. *)
Lemma summarize_returns_trimmed_text_witness :
  (exists body lead core trail,
     snd (summarize_article_route (replying (py "  A summary. "))
            (mkSummarizeRequest (py "Some text."))) = Success body
     /\ status (snd (summarize_article_route (replying (py "  A summary. "))
                       (mkSummarizeRequest (py "Some text.")))) = 200
     /\ py "  A summary. " = lead ++ core ++ trail
     /\ blank lead = true /\ blank trail = true
     /\ (forall c, list.head core = Some c -> isspace c = false)
     /\ (forall c, list.last core = Some c -> isspace c = false)
     /\ (core <> [] -> summary body = core)
     /\ (core = [] ->
         summary body
         = py "The AI model could not generate a summary for this content."))
  /\ snd (summarize_article_route (replying (py "  A summary. "))
            (mkSummarizeRequest (py "Some text.")))
     = Success (mkSummaryResponse (py "A summary.")).
Proof.
  split; [|vm_compute; reflexivity].
  apply (summarize_returns_trimmed_text (replying (py "  A summary. "))
           (py "Some text.") (Genai.mkGenResponse (Ok (py "  A summary. ")))
           (py "  A summary. "));
    [vm_compute; reflexivity | reflexivity | reflexivity].
Defined.

(** C6 at an exhausted quota. *)
Lemma summarize_llm_failure_is_503_witness :
  snd (summarize_article_route
         (failing (Exn GoogleAPIError (py "429 Resource has been exhausted")))
         (mkSummarizeRequest (py "Some text.")))
  = ErrorDetail 503
      (py "Gemini API request failed: " ++ py "429 Resource has been exhausted")
  /\ py "429 Resource has been exhausted"
     `suffix_of` py "Gemini API request failed: "
       ++ py "429 Resource has been exhausted"
  /\ In (EvPrint (py "DEBUG: Gemini API request failed. Error: "
                  ++ py "429 Resource has been exhausted"))
        (fst (summarize_article_route
                (failing (Exn GoogleAPIError (py "429 Resource has been exhausted")))
                (mkSummarizeRequest (py "Some text.")))).
Proof.
  apply (summarize_llm_failure_is_503
           (failing (Exn GoogleAPIError (py "429 Resource has been exhausted")))
           (py "Some text.")
           (Exn GoogleAPIError (py "429 Resource has been exhausted")));
    [vm_compute; reflexivity | apply llm_call_raises; reflexivity].
Defined.

(** C10 at three spaces. *)
Lemma summarize_blank_content_no_llm_call_witness :
  summarize_article (replying (py "A summary.")) (mkSummarizeRequest (py "   "))
  = raise (HTTPException 400 (py "Content cannot be empty."))
  /\ fst (summarize_article_route (replying (py "A summary."))
            (mkSummarizeRequest (py "   "))) = []
  /\ forall model prompt,
       ~ In (EvGenerateContent model prompt)
            (fst (summarize_article_route (replying (py "A summary."))
                    (mkSummarizeRequest (py "   ")))).
Proof.
  apply (summarize_blank_content_no_llm_call (replying (py "A summary."))
           (py "   ")).
  vm_compute. reflexivity.
Defined.

(** C8 at an environment with the news key only. *)
Lemma startup_fails_without_keys_witness :
  exists msg,
    main_module ∅ {[ py "NEWS_API_KEY" := py "news-key" ]}
    = (mkModuleState [] None, Raise (Exn RuntimeError msg)).
Proof.
  apply (startup_fails_without_keys ∅ {[ py "NEWS_API_KEY" := py "news-key" ]}).
  right. left. vm_compute. reflexivity.
Defined.

(** * Further properties of the handlers *)

(** ** [fetch_and_summarise_news]: documents, records and errors *)

Lemma comprehension_raise_inv {A B : Type} (f : A -> M B) (l : list A) (e : exn) :
  outcome (comprehension f l) = Raise e ->
  exists x, In x l /\ outcome (f x) = Raise e.
Proof.
  induction l as [|x l IH]; simpl; [discriminate|].
  rewrite outcome_bind. destruct (outcome (f x)) as [y|e0] eqn:Hx.
  - rewrite outcome_bind.
    destruct (outcome (comprehension f l)) as [ys|e1]; [discriminate|].
    intros H. injection H as ->. destruct (IH eq_refl) as (x' & Hin & Hx').
    eauto.
  - intros H. injection H as ->. eauto.
Qed.

(** The comprehension of lines 81-86 returns, or raises a built-in or
    pydantic error. *)
Lemma comprehension_map_article_outcome (items : list json) :
  (exists articles, outcome (comprehension map_article items) = Ok articles)
  \/ (exists c t, outcome (comprehension map_article items) = Raise (Exn c t)).
Proof.
  destruct (outcome (comprehension map_article items)) as [ys|e] eqn:H; [eauto|].
  right. destruct (comprehension_raise_inv _ _ _ H) as (x & _ & Hx).
  destruct (map_article_raises x e Hx) as (c & t & ->). eauto.
Qed.

Section FetchNewsDocuments.

Variable cfg : Config.
Variable net : Requests.network.
Variable category : pystr.
Variable r : Requests.Response.

Hypothesis answered : net NEWS_API_URL (news_params cfg category) = Ok r.
Hypothesis status_ok : Requests.raise_for_status r = Ok tt.

Let request : event := EvHttpGet NEWS_API_URL (news_params cfg category).

(** A document without a non-empty [articles] list ends in a built-in
    error. *)
Lemma fetch_unusable_document (doc : json) :
  Requests.json r = Ok doc ->
  has_articles doc = false ->
  exists c t,
    fetch_and_summarise_news cfg net category = ([request], Raise (Exn c t)).
Proof.
  intros Hjson Hdoc.
  unfold fetch_and_summarise_news, Requests.get, perform.
  rewrite answered. cbn [bind try_except]. rewrite status_ok.
  cbn [bind lift try_except]. rewrite Hjson. cbn [bind lift try_except].
  destruct doc as [| b | n | f | s | l | fields];
    try (cbn; eauto; fail).
  cbn [Json.get bind lift getitem]. cbn [has_articles] in Hdoc.
  destruct (fields !! py "articles") as [v|]; [|cbn; eauto].
  destruct v as [| [] | n | f | [|ch s] | [|x l] | obj];
    try discriminate; try (cbn; eauto; fail).
  - destruct (Z.eqb_spec n 0) as [->|Hn]; [cbn; eauto|].
    cbn. destruct (n =? 0) eqn:E; [apply Z.eqb_eq in E; contradiction|].
    cbn. eauto.
  - destruct f; cbn; eauto.
  - cbn. destruct (Nat.eqb (size obj) 0); cbn; eauto.
Qed.

(** A record that does not map ends the request in a built-in or pydantic
    error. *)
Lemma fetch_bad_record (fields : gmap pystr json) (items : list json) (x : json) :
  Requests.json r = Ok (JObj fields) ->
  fields !! py "articles" = Some (JArr items) ->
  In x items ->
  (exists e, outcome (map_article x) = Raise e) ->
  exists c t,
    fetch_and_summarise_news cfg net category = ([request], Raise (Exn c t)).
Proof.
  intros Hjson Hart Hin Hx.
  assert (Hne : items <> []) by (intros ->; destruct Hin).
  rewrite (fetch_decoded cfg net category r fields items answered status_ok
             Hjson Hart Hne).
  destruct (comprehension_bad_record items x Hin Hx) as (c & t & ->). eauto.
Qed.

(** After a decoded document the handler returns, or raises a built-in or
    pydantic error. *)
Lemma fetch_document_outcome (doc : json) :
  Requests.json r = Ok doc ->
  (exists articles,
     outcome (fetch_and_summarise_news cfg net category) = Ok articles)
  \/ (exists c t,
        outcome (fetch_and_summarise_news cfg net category) = Raise (Exn c t)).
Proof.
  intros Hjson. destruct (has_articles doc) eqn:Hdoc.
  - destruct doc as [| | | | | |fields]; try discriminate.
    cbn [has_articles] in Hdoc.
    destruct (fields !! py "articles") as [[| | | | |[|x l]|]|] eqn:Hart;
      try discriminate.
    rewrite (fetch_decoded cfg net category r fields (x :: l) answered status_ok
               Hjson Hart ltac:(discriminate)).
    apply comprehension_map_article_outcome.
  - right. destruct (fetch_unusable_document doc Hjson Hdoc) as (c & t & ->).
    eauto.
Qed.

End FetchNewsDocuments.

(** An unusable record does not map. *)
Lemma unusable_record_raises (x : json) :
  unusable_record x = true -> exists e, outcome (map_article x) = Raise e.
Proof.
  intros Hbad.
  assert (Hno : forall a, outcome (map_article x) <> Ok a).
  { intros a. revert Hbad.
    destruct x as [| | | | | |fields]; try (cbn; discriminate).
    cbn [unusable_record]. unfold map_article, Article_init.
    repeat first
      [ progress cbn [outcome lift snd ret get_default default
                      Pydantic.validate_str Pydantic.validate_optional_str]
      | rewrite outcome_bind ].
    destruct (fields !! py "source") as [[]|];
      destruct (fields !! py "title") as [[]|];
      destruct (fields !! py "url") as [[]|];
      intros Hbad; try discriminate Hbad;
      repeat first
        [ progress cbn [outcome lift snd ret get_default default
                        Pydantic.validate_str Pydantic.validate_optional_str]
        | rewrite outcome_bind ];
      discriminate. }
  destruct (outcome (map_article x)) as [a|e]; [destruct (Hno a eq_refl) | eauto].
Qed.

(** X1 -- after a successful call, a decoded document that is not an object
    holding a non-empty list under [articles] (a list or a string at top
    level, [articles] missing, [null], [false], [0], [""], an empty list or
    object, or a number, a string, [true] or an object in the place of the
    list) is answered with status 500: every such document runs into a
    built-in error that nothing catches. *)
Theorem fetch_news_unusable_document_is_500 (cfg : Config)
    (net : Requests.network) (category : option pystr)
    (r : Requests.Response) (doc : json) :
  net NEWS_API_URL (news_params cfg (default (py "technology") category)) = Ok r ->
  Requests.raise_for_status r = Ok tt ->
  Requests.json r = Ok doc ->
  has_articles doc = false ->
  snd (fetch_news_route cfg net category) = InternalServerError.
Proof.
  intros Hnet Hst Hjson Hdoc. unfold fetch_news_route, serve.
  destruct (fetch_unusable_document cfg net _ r Hnet Hst doc Hjson Hdoc)
    as (c & t & ->).
  reflexivity.
Qed.

(** X2 -- the mapping is all or nothing: one item of [articles] that is not
    an object, or whose [source] is present and not an object, or whose
    [title] or [url] is [null], makes the whole request end with status
    500, wherever the item stands and however good the other records
    are. *)
Theorem fetch_news_unusable_record_is_500 (cfg : Config)
    (net : Requests.network) (category : option pystr)
    (r : Requests.Response) (fields : gmap pystr json) (items : list json)
    (x : json) :
  net NEWS_API_URL (news_params cfg (default (py "technology") category)) = Ok r ->
  Requests.raise_for_status r = Ok tt ->
  Requests.json r = Ok (JObj fields) ->
  fields !! py "articles" = Some (JArr items) ->
  In x items ->
  unusable_record x = true ->
  snd (fetch_news_route cfg net category) = InternalServerError.
Proof.
  intros Hnet Hst Hjson Hart Hin Hbad. unfold fetch_news_route, serve.
  destruct (fetch_bad_record cfg net _ r Hnet Hst fields items x Hjson Hart Hin
              (unusable_record_raises x Hbad)) as (c & t & ->).
  reflexivity.
Qed.

(** X3 -- only [title], [url], [description] and [source] are read from a
    record, and only [name] from its [source]: for any record, adding or
    changing any other key leaves the mapped article (or the error)
    unchanged, and so does, when its [source] is an object, adding or
    changing any other key of that object. *)
Theorem map_article_ignores_other_keys (fields : gmap pystr json)
    (key key' : pystr) (v v' : json) :
  key <> py "title" -> key <> py "url" -> key <> py "description" ->
  key <> py "source" -> key' <> py "name" ->
  map_article (JObj (<[key := v]> fields)) = map_article (JObj fields)
  /\ (forall source,
        fields !! py "source" = Some (JObj source) ->
        map_article (JObj (<[py "source" := JObj (<[key' := v']> source)]> fields))
        = map_article (JObj fields)).
Proof.
  intros Ht Hu Hd Hs Hn. split.
  - unfold map_article. cbn [get_default].
    rewrite !lookup_insert_ne by assumption. reflexivity.
  - intros source Hsrc. unfold map_article. cbn [get_default].
    rewrite !bind_lift_ok.
    rewrite lookup_insert_eq, Hsrc. cbn [default from_option id get_default].
    rewrite (lookup_insert_ne source) by assumption.
    rewrite !(lookup_insert_ne fields (py "source")) by (vm_compute; discriminate).
    reflexivity.
Qed.

Section FetchNewsErrors.

Variable cfg : Config.
Variable net : Requests.network.
Variable category : pystr.

Let request : event := EvHttpGet NEWS_API_URL (news_params cfg category).

(** An exception raised by [Response.json()] takes the way of the [except]
    clause of line 70 like the others. *)
Lemma fetch_decode_failed (r : Requests.Response) (e : exn) :
  net NEWS_API_URL (news_params cfg category) = Ok r ->
  Requests.raise_for_status r = Ok tt ->
  Requests.json r = Raise e ->
  fetch_and_summarise_news cfg net category
  = ([request],
     Raise (if isinstance e RequestException
            then HTTPException 503 (py "NewsAPI request failed: " ++ str e)
            else e)).
Proof.
  intros Hnet Hst Hjson.
  unfold fetch_and_summarise_news, Requests.get, perform.
  rewrite Hnet. cbn [bind try_except]. rewrite Hst. cbn [bind lift try_except].
  rewrite Hjson. cbn [try_except].
  destruct (isinstance e RequestException); reflexivity.
Qed.

(** An exception of [requests.get] outside the [requests] family is not
    caught. *)
Lemma fetch_call_not_caught (e : exn) :
  net NEWS_API_URL (news_params cfg category) = Raise e ->
  isinstance e RequestException = false ->
  fetch_and_summarise_news cfg net category = ([request], Raise e).
Proof.
  intros Hnet Hinst.
  unfold fetch_and_summarise_news, Requests.get, perform.
  rewrite Hnet. cbn [bind try_except]. rewrite Hinst. reflexivity.
Qed.

(** What [raise_for_status] raises belongs to the [requests] family. *)
Lemma raise_for_status_raises (r : Requests.Response) (e : exn) :
  Requests.raise_for_status r = Raise e -> isinstance e RequestException = true.
Proof.
  unfold Requests.raise_for_status.
  destruct (PyStr.truthy (Requests.http_error_msg r)); [|discriminate].
  intros H. injection H as <-. reflexivity.
Qed.

End FetchNewsErrors.

(** X4 -- [Response.json()] is called inside the [try]: when the body of a
    response that passed the status check cannot be decoded and the decoder
    raises an exception of the [requests] family (its [JSONDecodeError]),
    the route answers 503 with the detail ["NewsAPI request failed: "]
    followed by the text of that exception. *)
Theorem fetch_news_undecodable_body_is_503 (cfg : Config)
    (net : Requests.network) (category : option pystr)
    (r : Requests.Response) (e : exn) :
  net NEWS_API_URL (news_params cfg (default (py "technology") category)) = Ok r ->
  Requests.raise_for_status r = Ok tt ->
  Requests.json r = Raise e ->
  isinstance e RequestException = true ->
  snd (fetch_news_route cfg net category)
  = ErrorDetail 503 (py "NewsAPI request failed: " ++ str e).
Proof.
  intros Hnet Hst Hjson Hinst. unfold fetch_news_route, serve.
  rewrite (fetch_decode_failed cfg net _ r e Hnet Hst Hjson), Hinst.
  reflexivity.
Qed.

(** X5 -- the [except] clause of line 70 names [RequestException] only: an
    exception of another class ([ValueError], [TypeError], ...) raised by
    [requests.get] or by [Response.json()] is not turned into a 503; it
    escapes the handler and the route answers 500. *)
Theorem fetch_news_other_exception_is_500 (cfg : Config)
    (net : Requests.network) (category : option pystr)
    (c : exn_class) (text : pystr) :
  issubclass c RequestException = false ->
  net NEWS_API_URL (news_params cfg (default (py "technology") category))
    = Raise (Exn c text)
  \/ (exists r,
        net NEWS_API_URL (news_params cfg (default (py "technology") category))
          = Ok r
        /\ Requests.raise_for_status r = Ok tt
        /\ Requests.json r = Raise (Exn c text)) ->
  snd (fetch_news_route cfg net category) = InternalServerError.
Proof.
  intros Hsub [Hnet | (r & Hnet & Hst & Hjson)]; unfold fetch_news_route, serve.
  - rewrite (fetch_call_not_caught cfg net _ (Exn c text) Hnet Hsub). reflexivity.
  - rewrite (fetch_decode_failed cfg net _ r (Exn c text) Hnet Hst Hjson).
    unfold isinstance. cbn [class_of]. rewrite Hsub. reflexivity.
Qed.

(** X6 -- as long as the network and the decoder raise exceptions of their
    own (never FastAPI's [HTTPException]), the route answers with status
    200, 500 or 503 and no other; the only [HTTPException] the handler
    raises is the 503 of line 71. *)
Theorem fetch_news_status_is_200_500_or_503 (cfg : Config)
    (net : Requests.network) (category : option pystr) :
  (forall e,
     net NEWS_API_URL (news_params cfg (default (py "technology") category))
       = Raise e ->
     exists c t, e = Exn c t) ->
  (forall r e,
     net NEWS_API_URL (news_params cfg (default (py "technology") category))
       = Ok r ->
     Requests.json r = Raise e -> exists c t, e = Exn c t) ->
  status (snd (fetch_news_route cfg net category)) = 200
  \/ status (snd (fetch_news_route cfg net category)) = 500
  \/ status (snd (fetch_news_route cfg net category)) = 503.
Proof.
  intros Hcall Hdecode. unfold fetch_news_route, serve. cbn [snd].
  set (cat := default (py "technology") category) in *.
  destruct (net NEWS_API_URL (news_params cfg cat)) as [r|e] eqn:Hnet.
  - destruct (Requests.raise_for_status r) as [[]|e] eqn:Hst.
    + destruct (Requests.json r) as [doc|e] eqn:Hjson.
      * destruct (fetch_document_outcome cfg net cat r Hnet Hst doc Hjson)
          as [(articles & ->) | (c & t & ->)]; cbn [outcome snd respond];
          [destruct (forallb Article_encodable articles)|]; cbn; auto.
      * rewrite (fetch_decode_failed cfg net cat r e Hnet Hst Hjson).
        destruct (Hdecode r e eq_refl Hjson) as (c & t & ->).
        cbn [outcome snd]. destruct (isinstance (Exn c t) RequestException);
          cbn; auto.
    + rewrite (fetch_request_failed cfg net cat e
                 (raise_for_status_raises r e Hst)
                 (or_intror (ex_intro _ r (conj Hnet Hst)))).
      cbn. auto.
  - destruct (Hcall e eq_refl) as (c & t & ->).
    destruct (isinstance (Exn c t) RequestException) eqn:Hinst.
    + rewrite (fetch_request_failed cfg net cat (Exn c t) Hinst (or_introl Hnet)).
      cbn. auto.
    + rewrite (fetch_call_not_caught cfg net cat (Exn c t) Hnet Hinst).
      cbn. auto.
Qed.

(** ** [summarize_article]: calls, summaries and statuses *)


Section SummarizeCases.

Variable llm : Genai.provider.
Variable article_content : pystr.

Let request : SummarizeRequest := mkSummarizeRequest article_content.
Let call : event :=
  EvGenerateContent GEMINI_MODEL_NAME (prompt_of article_content).

(** The three ways the route can go. *)
Lemma summarize_cases :
  (blank article_content = true
   /\ summarize_article_route llm request
      = ([], ErrorDetail 400 (py "Content cannot be empty.")))
  \/ (blank article_content = false
      /\ exists t,
           summarize_article_route llm request
           = ([call], Success (mkSummaryResponse (summary_of t))))
  \/ (blank article_content = false
      /\ exists e,
           summarize_article_route llm request
           = ([call;
               EvPrint (py "DEBUG: Gemini API request failed. Error: " ++ str e)],
              ErrorDetail 503 (py "Gemini API request failed: " ++ str e))).
Proof.
  unfold summarize_article_route, serve. subst request call.
  destruct (blank article_content) eqn:Hb.
  - left. rewrite (summarize_blank llm article_content Hb). auto.
  - right.
    destruct (llm GEMINI_MODEL_NAME (prompt_of article_content))
      as [reply|e] eqn:Hllm.
    + destruct (Genai.text reply) as [t|e] eqn:Ht.
      * left. rewrite (summarize_text llm article_content reply t Hb Hllm Ht).
        eauto.
      * right.
        rewrite (summarize_failure llm article_content e Hb
                   (llm_reply_unreadable llm article_content reply e Hllm Ht)).
        eauto.
    + right.
      rewrite (summarize_failure llm article_content e Hb
                 (llm_call_raises llm article_content e Hllm)).
      eauto.
Qed.

End SummarizeCases.

(** A summary is never empty and has no whitespace left around it. *)
Lemma summary_of_shape (t : pystr) :
  summary_of t <> [] /\ strip (summary_of t) = summary_of t.
Proof.
  unfold summary_of. destruct (strip t) as [|c l] eqn:Hs.
  - split; [discriminate | vm_compute; reflexivity].
  - split; [discriminate|]. rewrite <- Hs. apply strip_idem.
Qed.

(** X7 -- for a content that passes the check of line 96, and whatever the
    LLM then does (a reply, an unreadable reply, an exception), the route
    calls the LLM exactly once, as its first effect, with the model
    ["gemini-2.0-flash-lite"] and the prompt of line 103 around the content
    as received (not trimmed); there is no second attempt. *)
Theorem summarize_one_llm_call (llm : Genai.provider) (content : pystr) :
  blank content = false ->
  exists rest,
    fst (summarize_article_route llm (mkSummarizeRequest content))
    = EvGenerateContent (py "gemini-2.0-flash-lite") (prompt_of content) :: rest
    /\ forall model prompt, ~ In (EvGenerateContent model prompt) rest.
Proof.
  intros Hb.
  destruct (summarize_cases llm content)
    as [(Hb' & _) | [(_ & t & ->) | (_ & e & ->)]]; [congruence| |].
  - exists []. split; [reflexivity|]. intros model prompt [].
  - eexists. split; [reflexivity|].
    intros model prompt [H | []]. discriminate H.
Qed.

(** X8 -- a 200 answer never carries an empty summary, nor one with
    whitespace at either end: the summary is a stripped, non-empty text or
    the fixed sentence. *)
Theorem summarize_summary_is_trimmed_and_not_empty (llm : Genai.provider)
    (request : SummarizeRequest) (body : SummaryResponse) :
  snd (summarize_article_route llm request) = Success body ->
  summary body <> [] /\ strip (summary body) = summary body.
Proof.
  destruct request as [content]. intros Hok.
  destruct (summarize_cases llm content)
    as [(_ & H) | [(_ & t & H) | (_ & e & H)]];
    rewrite H in Hok; cbn [snd] in Hok; try discriminate.
  injection Hok as <-. apply summary_of_shape.
Qed.

(** X9 -- for a request whose body has been accepted as a
    [SummarizeRequest], the route answers with status 200, 400 or 503 and
    no other: [except Exception] leaves no exception of the LLM call
    uncaught, so there is no 500. *)
Theorem summarize_status_is_200_400_or_503 (llm : Genai.provider)
    (request : SummarizeRequest) :
  status (snd (summarize_article_route llm request)) = 200
  \/ status (snd (summarize_article_route llm request)) = 400
  \/ status (snd (summarize_article_route llm request)) = 503.
Proof.
  destruct request as [content].
  destruct (summarize_cases llm content)
    as [(_ & ->) | [(_ & t & ->) | (_ & e & ->)]]; cbn; auto.
Qed.

(** X10 -- the route prints only on the failure path: when a line is
    printed the answer is the 503, and the line is the DEBUG line with the
    text that the detail carries. *)
Theorem summarize_prints_only_on_failure (llm : Genai.provider)
    (request : SummarizeRequest) (line : pystr) :
  In (EvPrint line) (fst (summarize_article_route llm request)) ->
  exists text,
    line = py "DEBUG: Gemini API request failed. Error: " ++ text
    /\ snd (summarize_article_route llm request)
       = ErrorDetail 503 (py "Gemini API request failed: " ++ text).
Proof.
  destruct request as [content].
  destruct (summarize_cases llm content)
    as [(_ & ->) | [(_ & t & ->) | (_ & e & ->)]]; cbn [fst snd In].
  - intros [].
  - intros [H | []]. discriminate H.
  - intros [H | [H | []]]; [discriminate H|].
    injection H as <-. eauto.
Qed.

(** ** Startup: which error, which values *)

(** X11 -- the keys are checked in the order of the file: when
    [NEWS_API_KEY] is missing or empty the error names it, whatever the
    state of [GEMINI_API_KEY]; the error names [GEMINI_API_KEY] only when
    the news key is usable. *)
Theorem startup_error_names_first_missing_key
    (dotenv environ : gmap pystr pystr) :
  absent_or_empty (load_dotenv dotenv environ) (py "NEWS_API_KEY")
  \/ absent_or_empty (load_dotenv dotenv environ) (py "GEMINI_API_KEY") ->
  snd (main_module dotenv environ)
  = Raise (Exn RuntimeError
             (if getenv_truthy
                   (os_getenv (load_dotenv dotenv environ) (py "NEWS_API_KEY"))
              then py "GEMINI_API_KEY not found in the .env file."
              else py "NEWS_API_KEY not found in the .env file.")).
Proof.
  intros Habs. unfold main_module.
  assert (Hfalse : forall name,
            absent_or_empty (load_dotenv dotenv environ) name ->
            getenv_truthy (os_getenv (load_dotenv dotenv environ) name) = false).
  { intros name [H | H]; rewrite H; reflexivity. }
  destruct (getenv_truthy (os_getenv (load_dotenv dotenv environ)
                                     (py "NEWS_API_KEY")))
    eqn:Hnews; cbn [negb]; [|reflexivity].
  destruct Habs as [Habs | Habs]; apply Hfalse in Habs; [congruence|].
  rewrite Habs. reflexivity.
Qed.

(** X12 -- a key can come from the [.env] file or from the process
    environment, and the process environment wins: with the news key in
    [.env] only and the Gemini key in the environment (whatever [.env] says
    for it), the module runs to its end with these two values, hands the
    Gemini key to [genai.configure] and registers the three routes in the
    order of the file. *)
Theorem startup_reads_dotenv_and_environment
    (dotenv environ : gmap pystr pystr) (news_key gemini_key : pystr) :
  environ !! py "NEWS_API_KEY" = None ->
  dotenv !! py "NEWS_API_KEY" = Some news_key ->
  environ !! py "GEMINI_API_KEY" = Some gemini_key ->
  news_key <> [] -> gemini_key <> [] ->
  main_module dotenv environ
  = (mkModuleState [ (py "GET", py "/"); (py "GET", py "/fetch_news");
                     (py "POST", py "/summarize_article") ]
                   (Some gemini_key),
     Ok (mkConfig news_key gemini_key)).
Proof.
  intros Hn Hn' Hg Hnn Hgn.
  apply startup_with_both_keys; try assumption; unfold os_getenv, load_dotenv.
  - rewrite lookup_union_r by assumption. assumption.
  - apply lookup_union_Some_l. assumption.
Qed.

(** ** The further properties at sample inputs *)

(** X1 at [{"articles": "none"}]. *)
Lemma fetch_news_unusable_document_is_500_witness :
  snd (fetch_news_route sample_cfg
         (answering (response_with 200 "OK"
                       (JObj (fields_of [("articles"%string, JStr (py "none"))]))))
         None)
  = InternalServerError.
Proof.
  apply (fetch_news_unusable_document_is_500 sample_cfg _ None
           (response_with 200 "OK"
              (JObj (fields_of [("articles"%string, JStr (py "none"))])))
           (JObj (fields_of [("articles"%string, JStr (py "none"))])));
    [reflexivity | reflexivity | reflexivity | vm_compute; reflexivity].
Defined.

(** X2 at a good record followed by a [null]. *)
Lemma fetch_news_unusable_record_is_500_witness :
  snd (fetch_news_route sample_cfg
         (answering
            (response_with 200 "OK"
               (JObj (fields_of
                        [("articles"%string,
                          JArr [JObj null_description_record; JNull])]))))
         None)
  = InternalServerError.
Proof.
  apply (fetch_news_unusable_record_is_500 sample_cfg _ None
           (response_with 200 "OK"
              (JObj (fields_of
                       [("articles"%string,
                         JArr [JObj null_description_record; JNull])])))
           (fields_of [("articles"%string,
                        JArr [JObj null_description_record; JNull])])
           [JObj null_description_record; JNull] JNull);
    [ reflexivity | reflexivity | reflexivity | vm_compute; reflexivity
    | right; left; reflexivity | reflexivity ].
Defined.

(** X3 at an [author] added to a record without [source], and at a
    [category] added to the source of a record that has one. *)
Lemma map_article_ignores_other_keys_witness :
  map_article (JObj (<[py "author" := JStr (py "A. Writer")]>
                       null_description_record))
  = map_article (JObj null_description_record)
  /\ map_article
       (JObj (<[py "source" :=
                  JObj (<[py "category" := JStr (py "tech")]> wire_source)]>
                sourced_record))
     = map_article (JObj sourced_record).
Proof.
  destruct (map_article_ignores_other_keys null_description_record
              (py "author") (py "category") (JStr (py "A. Writer"))
              (JStr (py "tech"))) as [Hrecord _];
    try (vm_compute; discriminate).
  destruct (map_article_ignores_other_keys sourced_record
              (py "author") (py "category") (JStr (py "A. Writer"))
              (JStr (py "tech"))) as [_ Hsource];
    try (vm_compute; discriminate).
  split; [exact Hrecord|].
  apply (Hsource wire_source). vm_compute. reflexivity.
Defined.

(** X4 at a 200 response with an empty body. *)
Lemma fetch_news_undecodable_body_is_503_witness :
  snd (fetch_news_route sample_cfg
         (answering
            (Requests.mkResponse 200 (py "OK") NEWS_API_URL
               (Raise (Exn JSONDecodeError
                         (py "Expecting value: line 1 column 1 (char 0)")))))
         None)
  = ErrorDetail 503
      (py "NewsAPI request failed: "
       ++ str (Exn JSONDecodeError
                 (py "Expecting value: line 1 column 1 (char 0)"))).
Proof.
  apply (fetch_news_undecodable_body_is_503 sample_cfg _ None
           (Requests.mkResponse 200 (py "OK") NEWS_API_URL
              (Raise (Exn JSONDecodeError
                        (py "Expecting value: line 1 column 1 (char 0)")))));
    reflexivity.
Defined.

(** X5 at a [ValueError] of the call. *)
Lemma fetch_news_other_exception_is_500_witness :
  snd (fetch_news_route sample_cfg
         (fun _ _ => Raise (Exn ValueError (py "check_hostname requires server_hostname")))
         None)
  = InternalServerError.
Proof.
  apply (fetch_news_other_exception_is_500 sample_cfg
           (fun _ _ => Raise (Exn ValueError
                                (py "check_hostname requires server_hostname")))
           None ValueError (py "check_hostname requires server_hostname"));
    [reflexivity | left; reflexivity].
Defined.

(** X6 at six records. *)
Lemma fetch_news_status_is_200_500_or_503_witness :
  status (snd (fetch_news_route sample_cfg
                 (answering (response_with 200 "OK" (JObj six_records_fields)))
                 None)) = 200
  \/ status (snd (fetch_news_route sample_cfg
                    (answering (response_with 200 "OK" (JObj six_records_fields)))
                    None)) = 500
  \/ status (snd (fetch_news_route sample_cfg
                    (answering (response_with 200 "OK" (JObj six_records_fields)))
                    None)) = 503.
Proof.
  apply (fetch_news_status_is_200_500_or_503 sample_cfg
           (answering (response_with 200 "OK" (JObj six_records_fields))) None).
  - intros e H. discriminate H.
  - intros r e H. injection H as <-. cbn. discriminate.
Defined.

(** X7 at a content with spaces around it. *)
Lemma summarize_one_llm_call_witness :
  exists rest,
    fst (summarize_article_route (replying (py "A summary."))
           (mkSummarizeRequest (py " Some text. ")))
    = EvGenerateContent (py "gemini-2.0-flash-lite")
        (prompt_of (py " Some text. ")) :: rest
    /\ forall model prompt, ~ In (EvGenerateContent model prompt) rest.
Proof.
  apply (summarize_one_llm_call (replying (py "A summary.")) (py " Some text. ")).
  vm_compute. reflexivity.
Defined.

(** X8 at a reply with spaces around its text. *)
Lemma summarize_summary_is_trimmed_and_not_empty_witness :
  summary (mkSummaryResponse (py "A summary.")) <> []
  /\ strip (summary (mkSummaryResponse (py "A summary.")))
     = summary (mkSummaryResponse (py "A summary.")).
Proof.
  apply (summarize_summary_is_trimmed_and_not_empty
           (replying (py "  A summary. ")) (mkSummarizeRequest (py "Some text."))
           (mkSummaryResponse (py "A summary."))).
  vm_compute. reflexivity.
Defined.

(** X10 at an exhausted quota. *)
Lemma summarize_prints_only_on_failure_witness :
  exists text,
    py "DEBUG: Gemini API request failed. Error: 429 Resource has been exhausted"
    = py "DEBUG: Gemini API request failed. Error: " ++ text
    /\ snd (summarize_article_route
              (failing (Exn GoogleAPIError (py "429 Resource has been exhausted")))
              (mkSummarizeRequest (py "Some text.")))
       = ErrorDetail 503 (py "Gemini API request failed: " ++ text).
Proof.
  apply (summarize_prints_only_on_failure
           (failing (Exn GoogleAPIError (py "429 Resource has been exhausted")))
           (mkSummarizeRequest (py "Some text."))).
  vm_compute. right. left. reflexivity.
Defined.

(** X11 at an empty environment and no [.env]: the news key is named. *)
Lemma startup_error_names_first_missing_key_witness :
  snd (main_module ∅ ∅)
  = Raise (Exn RuntimeError
             (if getenv_truthy (os_getenv (load_dotenv ∅ ∅) (py "NEWS_API_KEY"))
              then py "GEMINI_API_KEY not found in the .env file."
              else py "NEWS_API_KEY not found in the .env file.")).
Proof.
  apply (startup_error_names_first_missing_key ∅ ∅).
  right. left. vm_compute. reflexivity.
Defined.

(** X12 at a [.env] with both keys and an environment with the Gemini
    key. *)
Lemma startup_reads_dotenv_and_environment_witness :
  main_module
    {[ py "NEWS_API_KEY" := py "news-from-dotenv";
       py "GEMINI_API_KEY" := py "gemini-from-dotenv" ]}
    {[ py "GEMINI_API_KEY" := py "gemini-from-environment" ]}
  = (mkModuleState [ (py "GET", py "/"); (py "GET", py "/fetch_news");
                     (py "POST", py "/summarize_article") ]
                   (Some (py "gemini-from-environment")),
     Ok (mkConfig (py "news-from-dotenv") (py "gemini-from-environment"))).
Proof.
  apply (startup_reads_dotenv_and_environment
           {[ py "NEWS_API_KEY" := py "news-from-dotenv";
              py "GEMINI_API_KEY" := py "gemini-from-dotenv" ]}
           {[ py "GEMINI_API_KEY" := py "gemini-from-environment" ]}
           (py "news-from-dotenv") (py "gemini-from-environment"));
    try (vm_compute; reflexivity); vm_compute; discriminate.
Defined.
